(** * Muddery combat handler: a shallow embedding of
    [muddery/combat/base_combat_handler.py] and the properties of its
    session life cycle (admission, termination predicate, finish, timeout,
    shutdown, escape). *)

From Stdlib Require Import List Arith Bool String ZArith Lia.
From Stdlib Require Import Ascii.
From Stdlib.Strings Require Byte.
Import ListNotations.

Local Open Scope nat_scope.

(** ** Data model *)

(** A team id is any Python value usable as a dict key; [None] is Python's
    [None], the initial value of [winner_team] in [finish]. *)
Definition Team := option nat.

Definition team_eqb (a b : Team) : bool :=
  match a, b with
  | None, None => true
  | Some x, Some y => Nat.eqb x y
  | _, _ => false
  end.

(** The value of the ["combat_finish"] payload. *)
Inductive Outcome := Win | Lose | Draw | Escaped.

(** One entry of [appearance["characters"]] in [get_appearance]. *)
Record CharInfo := mkInfo {
  i_dbref : nat;
  i_name : string;
  i_team : Team;
  i_max_hp : Z;
  i_hp : Z;
  i_icon : option string
}.

Record Appearance := mkAppearance {
  a_desc : string;
  a_timeout : nat;
  a_characters : list CharInfo
}.

(** The payloads the handler passes to [character.msg]. *)
Inductive Msg :=
| joined_combat
| combat_info (a : Appearance)
| left_combat
| combat_finish (o : Outcome)
| skill_result (r : string).

(** A character object, with the fields the handler reads and writes.
    [combat_handler] is [character.ndb.combat_handler] (the id of the
    handler, [None] when the attribute is deleted), [cmdset_combat] the
    number of [settings.CMDSET_COMBAT] sets on the character's cmdset
    stack, [outbox] what [character.msg] has received, oldest first, and
    [status_shown] counts the calls of [show_status]. *)
Record Character := mkChar {
  name : string;
  team : Team;
  alive : bool;
  has_account : bool;
  max_hp : Z;
  hp : Z;
  icon : option string;
  combat_handler : option nat;
  cmdset_combat : nat;
  outbox : list Msg;
  status_shown : nat
}.

(** The timer returned by [reactor.callLater]. *)
Inductive TimerState := Pending | Cancelled | Called.

Record Timer := mkTimer {
  delay : nat;
  tstate : TimerState
}.

Definition active (t : Timer) : bool :=
  match tstate t with Pending => true | _ => false end.

(** Characters are shared objects: the handler's dict holds references to
    them.  An object is identified by its [dbref]; [Objects] is the store
    of all character objects. *)
Definition Objects := nat -> Character.

(** The handler ([self]) together with the object store.  [characters]
    lists the keys of the dict [self.characters] in iteration order.
    [timer_cancels], [stops] and [casts] are ghost fields that record the
    calls of [timer.cancel()], of [self.stop()] and of
    [caller.cast_skill]. *)
Record State := mkState {
  self_id : nat;
  desc : string;
  timeout : nat;
  characters : list nat;
  finished : bool;
  timer : option Timer;
  objs : Objects;
  timer_cancels : nat;
  stops : nat;
  casts : list (string * nat * option nat)
}.

(** ** Character methods *)

Definition msg (m : Msg) (c : Character) : Character :=
  mkChar (name c) (team c) (alive c) (has_account c) (max_hp c) (hp c)
         (icon c) (combat_handler c) (cmdset_combat c)
         (outbox c ++ [m]) (status_shown c).

Definition show_status (c : Character) : Character :=
  mkChar (name c) (team c) (alive c) (has_account c) (max_hp c) (hp c)
         (icon c) (combat_handler c) (cmdset_combat c)
         (outbox c) (S (status_shown c)).

Definition set_team (t : Team) (c : Character) : Character :=
  mkChar (name c) t (alive c) (has_account c) (max_hp c) (hp c)
         (icon c) (combat_handler c) (cmdset_combat c)
         (outbox c) (status_shown c).

Definition set_combat_handler (h : option nat) (c : Character) : Character :=
  mkChar (name c) (team c) (alive c) (has_account c) (max_hp c) (hp c)
         (icon c) h (cmdset_combat c) (outbox c) (status_shown c).

(** [character.cmdset.add(settings.CMDSET_COMBAT)] pushes one set. *)
Definition cmdset_add (c : Character) : Character :=
  mkChar (name c) (team c) (alive c) (has_account c) (max_hp c) (hp c)
         (icon c) (combat_handler c) (S (cmdset_combat c))
         (outbox c) (status_shown c).

(** [character.cmdset.delete(settings.CMDSET_COMBAT)] removes every set of
    that path from the stack and is silent when there is none. *)
Definition cmdset_delete (c : Character) : Character :=
  mkChar (name c) (team c) (alive c) (has_account c) (max_hp c) (hp c)
         (icon c) (combat_handler c) 0 (outbox c) (status_shown c).

(** ** The object store *)

Definition upd (o : Objects) (d : nat) (f : Character -> Character)
  : Objects :=
  fun k => if Nat.eqb k d then f (o k) else o k.

(** [for character in ds: f(character)] *)
Definition foreach (ds : list nat) (f : Character -> Character)
  (o : Objects) : Objects :=
  fold_left (fun o' d => upd o' d f) ds o.

(** ** State setters *)

Definition with_objs (s : State) (o : Objects) : State :=
  mkState (self_id s) (desc s) (timeout s) (characters s) (finished s)
          (timer s) o (timer_cancels s) (stops s) (casts s).

Definition with_characters (s : State) (l : list nat) : State :=
  mkState (self_id s) (desc s) (timeout s) l (finished s)
          (timer s) (objs s) (timer_cancels s) (stops s) (casts s).

Definition with_finished (s : State) (b : bool) : State :=
  mkState (self_id s) (desc s) (timeout s) (characters s) b
          (timer s) (objs s) (timer_cancels s) (stops s) (casts s).

Definition with_timer (s : State) (t : option Timer) : State :=
  mkState (self_id s) (desc s) (timeout s) (characters s) (finished s)
          t (objs s) (timer_cancels s) (stops s) (casts s).

(** ** The handler *)

(** [at_script_creation], for the handler [id] over the objects [o]. *)
Definition at_script_creation (id : nat) (o : Objects) : State :=
  mkState id "handles combat" 0 [] false None o 0 0 [].

Definition get_appearance (s : State) : Appearance :=
  mkAppearance (desc s) (timeout s)
    (map (fun d => let c := objs s d in
                   mkInfo d (name c) (team c) (max_hp c) (hp c) (icon c))
         (characters s)).

(** [show_combat], on the character object itself. *)
Definition show_combat (a : Appearance) (c : Character) : Character :=
  msg (combat_info a) (msg joined_combat c).

(** [_cleanup_character], on the character object itself.  Deleting the
    [ndb] attribute and the command set is silent when they are already
    gone. *)
Definition cleanup (c : Character) : Character :=
  let c1 := set_combat_handler None c in
  let c2 := cmdset_delete c1 in
  if has_account c2 then show_status (msg left_combat c2) else c2.

Definition _cleanup_character (d : nat) (s : State) : State :=
  with_objs s (upd (objs s) d cleanup).

(** [if self.timer and self.timer.active(): self.timer.cancel()] *)
Definition cancel_timer (s : State) : State :=
  match timer s with
  | Some t =>
      if active t then
        mkState (self_id s) (desc s) (timeout s) (characters s) (finished s)
                (Some (mkTimer (delay t) Cancelled)) (objs s)
                (S (timer_cancels s)) (stops s) (casts s)
      else s
  | None => s
  end.

Definition at_stop (s : State) : State :=
  let s1 := cancel_timer s in
  fold_left (fun s' d => _cleanup_character d s') (characters s1) s1.

(** Modelled from the spec: [DefaultScript.stop] belongs to the hosting
    framework and is not part of the repository.  It "stops the session":
    it runs the [at_stop] hook ("called just before the script is
    stopped/destroyed") and then removes the script, which is counted in
    [stops]. *)
Definition stop (s : State) : State :=
  let s1 := at_stop s in
  mkState (self_id s1) (desc s1) (timeout s1) (characters s1) (finished s1)
          (timer s1) (objs s1) (timer_cancels s1) (S (stops s1)) (casts s1).

Definition at_server_shutdown (s : State) : State := stop s.

(** [self.characters[character.dbref] = character]: a new key goes to the
    end, an existing key keeps its place. *)
Definition dict_set (l : list nat) (d : nat) : list nat :=
  if existsb (Nat.eqb d) l then l else l ++ [d].

(** [del self.characters[dbref]] *)
Definition dict_del (l : list nat) (d : nat) : list nat :=
  filter (fun k => negb (Nat.eqb k d)) l.

(** The first loop of [set_combat]. *)
Definition enlist_one (t : Team) (s : State) (d : nat) : State :=
  with_characters (with_objs s (upd (objs s) d (set_team t)))
                  (dict_set (characters s) d).

Definition enlist_team (s : State) (tm : Team * list nat) : State :=
  fold_left (enlist_one (fst tm)) (snd tm) s.

(** The second loop of [set_combat]. *)
Definition enter (s : State) (d : nat) : State :=
  let o1 := upd (objs s) d (set_combat_handler (Some (self_id s))) in
  let o2 := upd o1 d cmdset_add in
  let s2 := with_objs s o2 in
  if has_account (o2 d)
  then with_objs s2 (upd o2 d (show_combat (get_appearance s2)))
  else s2.

Definition start_combat (s : State) : State := s.

Definition set_combat (teams : list (Team * list nat)) (dsc : string)
  (tmo : nat) (s : State) : State :=
  let s0 := mkState (self_id s) dsc tmo (characters s) (finished s)
                    (timer s) (objs s) (timer_cancels s) (stops s)
                    (casts s) in
  let s1 := fold_left enlist_team teams s0 in
  let s2 := fold_left enter (characters s1) s1 in
  let s3 := start_combat s2 in
  if Nat.eqb (timeout s3) 0 then s3
  else with_timer s3 (Some (mkTimer (timeout s3) Pending)).

(** The loop of [can_finish], with the set [teams] as a list without
    repetition. *)
Definition set_add (t : Team) (ts : list Team) : list Team :=
  if existsb (team_eqb t) ts then ts else t :: ts.

Fixpoint can_finish_loop (o : Objects) (ds : list nat) (teams : list Team)
  : bool :=
  match ds with
  | [] => true
  | d :: ds' =>
      if alive (o d) then
        let teams' := set_add (team (o d)) teams in
        if Nat.ltb 1 (List.length teams') then false
        else can_finish_loop o ds' teams'
      else can_finish_loop o ds' teams
  end.

Definition can_finish (s : State) : bool :=
  match characters s with
  | [] => false
  | _ => can_finish_loop (objs s) (characters s) []
  end.

Definition set_combat_draw (s : State) : State :=
  with_objs s
    (foreach (characters s)
       (fun c => if has_account c then msg (combat_finish Draw) c else c)
       (objs s)).

Definition notify (o : Outcome) (c : Character) : Character :=
  if has_account c then msg (combat_finish o) c else c.

Definition set_combat_results (winners losers : list nat) (s : State)
  : State :=
  with_objs s (foreach losers (notify Lose)
                 (foreach winners (notify Win) (objs s))).

(** The search for [winner_team] in [finish]. *)
Fixpoint winner_team (o : Objects) (ds : list nat) : Team :=
  match ds with
  | [] => None
  | d :: ds' => if alive (o d) then team (o d) else winner_team o ds'
  end.

Definition finish (s : State) : State :=
  let s1 := cancel_timer (with_finished s true) in
  let s2 :=
    match characters s1 with
    | [] => s1
    | _ =>
        let w := winner_team (objs s1) (characters s1) in
        let winners :=
          filter (fun d => team_eqb (team (objs s1 d)) w) (characters s1) in
        let losers :=
          filter (fun d => negb (team_eqb (team (objs s1 d)) w))
                 (characters s1) in
        set_combat_results winners losers s1
    end in
  stop s2.

Definition at_timeout (s : State) : State :=
  if finished s then s else stop (set_combat_draw s).

Definition skill_escape (caller : option nat) (s : State) : State :=
  match caller with
  | Some d =>
      let s1 :=
        if has_account (objs s d)
        then with_objs s (upd (objs s) d (msg (combat_finish Escaped)))
        else s in
      if existsb (Nat.eqb d) (characters s1)
      then with_characters (_cleanup_character d s1)
                           (dict_del (characters s1) d)
      else s1
  | None => s
  end.

Section Skills.

(** [caller.cast_skill(skill_key, target)] is the character's own
    capability: any effect on the state, [finish] included. *)
Variable cast_skill : string -> nat -> option nat -> State -> State.

Definition log_cast (k : string) (c : nat) (t : option nat) (s : State)
  : State :=
  mkState (self_id s) (desc s) (timeout s) (characters s) (finished s)
          (timer s) (objs s) (timer_cancels s) (stops s)
          (casts s ++ [(k, c, t)]).

Definition prepare_skill (skill_key : string) (caller target : option nat)
  (s : State) : State :=
  if finished s then s
  else match caller with
       | Some c =>
           let s1 := cast_skill skill_key c target
                       (log_cast skill_key c target s) in
           if can_finish s1 then finish s1 else s1
       | None => s
       end.

End Skills.

(** ** Sample sessions *)

Definition blank : Character :=
  mkChar "" None false false 0%Z 0%Z None None 0 [] 0.

(** A player of team 1, a player of team 2, a monster of team 2 without
    account, and a player of team 3. *)
Definition sample_objs : Objects :=
  fun d =>
    match d with
    | 1 => mkChar "ann" None true true 10%Z 10%Z None None 0 [] 0
    | 2 => mkChar "bob" None true true 12%Z 7%Z None None 0 [] 0
    | 3 => mkChar "rat" None true false 5%Z 5%Z (Some "rat.png"%string) None 0 [] 0
    | 4 => mkChar "cid" None true true 9%Z 9%Z None None 0 [] 0
    | _ => blank
    end.

Definition sample_teams : list (Team * list nat) :=
  [(Some 1, [1]); (Some 2, [2; 3])].

(** A running session of ann against bob and the rat, limited to 5
    seconds. *)
Definition sample : State :=
  set_combat sample_teams "duel" 5 (at_script_creation 7 sample_objs).

(** [character.die()] as far as the handler sees it. *)
Definition kill (c : Character) : Character :=
  mkChar (name c) (team c) false (has_account c) (max_hp c) 0%Z
         (icon c) (combat_handler c) (cmdset_combat c)
         (outbox c) (status_shown c).

(** The sample session after bob and the rat died. *)
Definition sample_won : State :=
  with_objs sample (upd (upd (objs sample) 2 kill) 3 kill).

(** The sample session after everybody died. *)
Definition sample_ko : State :=
  with_objs sample_won (upd (objs sample_won) 1 kill).

(** A skill that only hits: the target dies. *)
Definition lethal (k : string) (c : nat) (t : option nat) (s : State)
  : State :=
  match t with
  | Some d => with_objs s (upd (objs s) d kill)
  | None => s
  end.

(** ** Vocabulary of the statements *)

Definition Team_eq_dec (a b : Team) : {a = b} + {a <> b}.
Proof. decide equality. apply Nat.eq_dec. Defined.

(** The teams of the roster's living characters, in roster order. *)
Definition alive_team_list (o : Objects) (ds : list nat) : list Team :=
  map (fun d => team (o d)) (filter (fun d => alive (o d)) ds).

(** The set of distinct team ids among the living characters. *)
Definition alive_teams (s : State) : list Team :=
  nodup Team_eq_dec (alive_team_list (objs s) (characters s)).

Definition all_same (l : list Team) : Prop :=
  forall a b, In a l -> In b l -> a = b.

(** The fields of a character that only [set_team] and the skills change. *)
Definition core (c : Character) :=
  (name c, team c, alive c, has_account c, max_hp c, hp c, icon c).

Definition is_winner (o : Objects) (w : Team) (d : nat) : bool :=
  team_eqb (team (o d)) w.

(** The object store after [finish]: results, then release. *)
Definition finish_objs (s : State) : Objects :=
  let w := winner_team (objs s) (characters s) in
  foreach (characters s) cleanup
    (foreach (filter (fun d => negb (is_winner (objs s) w d))
                     (characters s)) (notify Lose)
       (foreach (filter (is_winner (objs s) w) (characters s))
                (notify Win) (objs s))).

Definition timer_inactive (s : State) : Prop :=
  match timer s with
  | Some t => active t = false
  | None => True
  end.

(** The result [finish] sends to a character of the roster. *)
Definition result_of (s : State) (d : nat) : Outcome :=
  if is_winner (objs s) (winner_team (objs s) (characters s)) d
  then Win else Lose.

(** What a character hears from [finish]: its result, then its release,
    when it has an account. *)
Definition finish_batch (s : State) (d : nat) : list Msg :=
  if has_account (objs s d)
  then [combat_finish (result_of s d); left_combat] else [].

(** The first living character of the roster, in iteration order. *)
Definition first_alive (o : Objects) (ds : list nat) : option nat :=
  find (fun d => alive (o d)) ds.

(** Conjunctions of closed equations, by evaluation. *)
Ltac by_evaluation :=
  repeat match goal with |- _ /\ _ => split end; vm_compute; reflexivity.

Ltac nodup_list :=
  vm_compute; repeat constructor; simpl; intuition discriminate.

Definition is_result (m : Msg) : bool :=
  match m with
  | combat_finish Win | combat_finish Lose | combat_finish Draw => true
  | _ => false
  end.

(** How many win, lose or draw payloads a character has received. *)
Definition results_received (s : State) (d : nat) : nat :=
  List.length (filter is_result (outbox (objs s d))).

Definition released (s : State) (d : nat) : Prop :=
  combat_handler (objs s d) = None /\ cmdset_combat (objs s d) = 0.

Definition draw_batch (s : State) (d : nat) : list Msg :=
  if has_account (objs s d)
  then [combat_finish Draw; left_combat] else [].

Definition timer_pending (s : State) : bool :=
  match timer s with
  | Some t => active t
  | None => false
  end.

Definition is_left (m : Msg) : bool :=
  match m with left_combat => true | _ => false end.

(** How many times a character was told that it left the combat. *)
Definition releases_heard (s : State) (d : nat) : nat :=
  List.length (filter is_left (outbox (objs s d))).

(** Cid joins as a third team and escapes: the roster is back to ann, bob
    and the rat, and the combat cannot finish yet. *)
Definition sample3 : State :=
  set_combat (sample_teams ++ [(Some 3, [4])]) "melee" 0
             (at_script_creation 7 sample_objs).

(** Every character listed in the team mapping, team after team. *)
Definition actors (teams : list (Team * list nat)) : list nat :=
  List.concat (map snd teams).

(** The handler's own fields that only [set_combat] and [finish] write. *)
Definition hframe (s : State) :=
  (self_id s, desc s, timeout s, finished s, timer s, timer_cancels s,
   stops s, casts s).

(** The fields of a character that [set_team] leaves alone. *)
Definition rest (c : Character) :=
  (name c, alive c, has_account c, max_hp c, hp c, icon c,
   combat_handler c, cmdset_combat c, outbox c, status_shown c).

Definition listed (teams : list (Team * list nat)) (k : nat) (t : Team)
  : Prop :=
  exists cs, In (t, cs) teams /\ In k cs.

(** What the second loop of [set_combat] does to one character. *)
Definition enter_char (id : nat) (a : Appearance) (c : Character)
  : Character :=
  let c2 := cmdset_add (set_combat_handler (Some id) c) in
  if has_account c2 then show_combat a c2 else c2.

(** ** The rest of the handler *)

(** [remove_character], for the character object of [dbref] [d]. *)
Definition remove_character (d : nat) (s : State) : State :=
  if existsb (Nat.eqb d) (characters s) then
    let s1 := with_characters (_cleanup_character d s)
                              (dict_del (characters s) d) in
    if can_finish s1 then finish s1 else s1
  else s.

Definition msg_all (m : Msg) (s : State) : State :=
  with_objs s (foreach (characters s) (msg m) (objs s)).

Definition send_skill_result (r : string) (s : State) : State :=
  with_objs s
    (foreach (characters s)
       (fun c => if has_account c then msg (skill_result r) c else c)
       (objs s)).

(** The three ways in which a session is torn down. *)
Inductive Exit := by_finish | by_timeout | by_shutdown.

Definition exit_by (e : Exit) (s : State) : State :=
  match e with
  | by_finish => finish s
  | by_timeout => at_timeout s
  | by_shutdown => at_server_shutdown s
  end.

(** Teardown calls arriving one after the other. *)
Definition exits (es : list Exit) (s : State) : State :=
  fold_left (fun s' e => exit_by e s') es s.

(** Cancellations so far plus the one a pending timer still owes. *)
Definition timer_debt (s : State) : nat :=
  timer_cancels s + (if timer_pending s then 1 else 0).

(** A skill whose effect ends the combat by itself. *)
Definition finishing_skill (k : string) (c : nat) (t : option nat)
  (s : State) : State := finish s.

(** The sample session when the rat is bob's only ally left alive. *)
Definition sample_rat : State :=
  with_objs sample (upd (objs sample) 2 kill).

(** The session just after a character of the roster was taken out. *)
Definition without (d : nat) (s : State) : State :=
  with_characters (_cleanup_character d s) (dict_del (characters s) d).

(** A character that holds neither back-reference nor combat command
    set. *)
Definition free (c : Character) : Prop :=
  combat_handler c = None /\ cmdset_combat c = 0.

(** ** The world editor's views: [muddery/worlddata/views.py] *)

(** An open file: its name, what is still to be read, and whether it was
    closed. *)
Record File := mkFile {
  fname : string;
  unread : list Byte.byte;
  closed : bool
}.

(** [file.read(n)] *)
Definition read (n : nat) (f : File) : list Byte.byte * File :=
  (firstn n (unread f), mkFile (fname f) (skipn n (unread f)) (closed f)).

Definition close (f : File) : File := mkFile (fname f) (unread f) true.

(** What a consumer gets from the generator [file_iterator] when it runs it
    to its end: the chunks yielded, the file afterwards, and the names
    passed to [os.remove]. *)
Record Served := mkServed {
  chunks : list (list Byte.byte);
  file_end : File;
  removed : list string
}.

(** The loop of [file_iterator]; [None] when the fuel runs out. *)
Fixpoint file_iterator_loop (fuel : nat) (file : File) (erase : bool)
  (chunk_size : nat) : option Served :=
  match fuel with
  | 0 => None
  | S fuel' =>
      let (c, file1) := read chunk_size file in
      match c with
      | [] =>
          Some (mkServed [] (close file1)
                         (if erase then [fname file1] else []))
      | _ :: _ =>
          match file_iterator_loop fuel' file1 erase chunk_size with
          | Some r =>
              Some (mkServed (c :: chunks r) (file_end r) (removed r))
          | None => None
          end
      end
  end.

(** One pass of the loop reads at least one byte or is the last one, so
    one more pass than there are bytes is enough. *)
Definition file_iterator (file : File) (erase : bool) (chunk_size : nat)
  : option Served :=
  file_iterator_loop (S (List.length (unread file))) file erase chunk_size.

(** A request, as far as the views look at it: whether its user passes the
    staff test ([user.is_active and user.is_staff]), its path, and the
    keys of [request.GET], [request.POST] and [request.FILES]. *)
Record Request := mkRequest {
  staff : bool;
  path : string;
  GET : list string;
  POST : list string;
  FILES : list string
}.

(** What calling a view comes to: the redirect to the login page that
    [staff_member_required] answers with, the exception [Http404], or the
    value the view returns. *)
Inductive Reply (A : Type) :=
| login_redirect
| http404
| ok (a : A).

Arguments login_redirect {A}.
Arguments http404 {A}.
Arguments ok {A} a.

(** The decorator [@staff_member_required]: the view runs only for a user
    that passes the staff test. *)
Definition staff_member_required {A} (view : Request -> Reply A)
  (request : Request) : Reply A :=
  if staff request then view request else login_redirect.

(** [key in d] *)
Definition has_key (k : string) (d : list string) : bool :=
  existsb (String.eqb k) d.

(** The view to which [worldeditor] hands the request. *)
Inductive Route :=
| to_export_game_data
| to_export_resources
| to_export_data_single
| to_import_data_all
| to_import_resources_all
| to_import_data_single
| to_apply_changes
| to_world_editor.

(** The body of [worldeditor]. *)
Definition worldeditor_body (request : Request) : Reply Route :=
  if has_key "export_game_data" (GET request) then ok to_export_game_data
  else if has_key "export_resources" (GET request)
  then ok to_export_resources
  else if has_key "export_data_single" (GET request)
  then ok to_export_data_single
  else if has_key "import_data_all" (FILES request)
  then ok to_import_data_all
  else if has_key "import_resources_all" (FILES request)
  then ok to_import_resources_all
  else if has_key "import_data_single" (FILES request)
  then ok to_import_data_single
  else if has_key "apply" (POST request) then ok to_apply_changes
  else ok to_world_editor.

Definition worldeditor : Request -> Reply Route :=
  staff_member_required worldeditor_body.

(** [s.split("/")] *)
Fixpoint split_slash (s : string) : list string :=
  match s with
  | EmptyString => [EmptyString]
  | String c r =>
      if Ascii.eqb c "/"%char then EmptyString :: split_slash r
      else match split_slash r with
           | h :: t => String c h :: t
           | [] => [String c EmptyString]
           end
  end.

(** [l[-2]]; [None] is the [IndexError]. *)
Definition last_but_one (l : list string) : option string :=
  match rev l with
  | _ :: x :: _ => Some x
  | _ => None
  end.

(** [form_name = request.path.split("/")[-2]] *)
Definition form_name_of (request : Request) : option string :=
  last_but_one (split_slash (path request)).

(** The view objects of the editor, with the arguments of their
    constructors. *)
Inductive View :=
| RelativeView (form_name : string) (request : Request)
               (relations : list (string * string))
| SingleFormView (form_name : string) (request : Request)
| DialogueView (form_name : string) (request : Request)
| DialogueSentenceView (form_name : string) (request : Request)
| DialogueChainView (form_name : string) (request : Request)
| FormView (form_name : string) (request : Request).

Definition relative_forms : list (string * list (string * string)) :=
  [("world_exits"%string,
    [("CLASS_LOCKED_EXIT"%string, "exit_locks"%string);
     ("CLASS_TWO_WAY_EXIT"%string, "two_way_exits"%string)]);
   ("world_objects"%string,
    [("CLASS_OBJECT_CREATOR"%string, "object_creators"%string)])].

Fixpoint dict_get {A} (k : string) (d : list (string * A)) : option A :=
  match d with
  | [] => None
  | (k', v) :: d' => if String.eqb k k' then Some v else dict_get k d'
  end.

(** The body of [get_view]: an [IndexError] becomes [Http404]. *)
Definition get_view_body (request : Request) : Reply View :=
  match form_name_of request with
  | None => http404
  | Some form_name =>
      ok
        (match dict_get form_name relative_forms with
         | Some relations => RelativeView form_name request relations
         | None =>
             if String.eqb form_name "game_settings"
                || String.eqb form_name "client_settings"
             then SingleFormView form_name request
             else if String.eqb form_name "dialogues"
             then DialogueView form_name request
             else if String.eqb form_name "dialogue_sentences"
             then DialogueSentenceView form_name request
             else if String.eqb form_name "dialogue_relations"
             then DialogueChainView form_name request
             else FormView form_name request
         end)
  end.

Definition get_view : Request -> Reply View :=
  staff_member_required get_view_body.

(** [DialogueChainImage(form_name, request)] *)
Inductive Image :=
| DialogueChainImage (form_name : string) (request : Request).

(** The body of [get_image_view], which ends in [raise http.Http404]. *)
Definition get_image_view_body (request : Request) : Reply Image :=
  match form_name_of request with
  | None => http404
  | Some form_name =>
      if String.eqb form_name "dialogue_relations"
      then ok (DialogueChainImage form_name request)
      else http404
  end.

Definition get_image_view : Request -> Reply Image :=
  staff_member_required get_image_view_body.

Section Views.

(** The responses, and the methods of the view objects, which live in the
    editor package: [None] is an exception raised by the method. *)
Variable Response : Type.
Variable is_valid : View -> bool.
Variable view_form_of : View -> option Response.
Variable quit_form : View -> option Response.
Variable delete_form : View -> option Response.
Variable submit_form_of : View -> option Response.
Variable add_form_of : View -> option Response.
Variable image_is_valid : Image -> bool.
Variable image_render : Image -> option Response.

(** [try: return method() except Exception: ... raise http.Http404] *)
Definition or_404 (r : option Response) : Reply Response :=
  match r with
  | Some resp => ok resp
  | None => http404
  end.

(** In the bodies below every exception ends in [Http404]: the one raised
    by [get_view], and the [AttributeError] of calling [is_valid] on the
    redirect that [get_view] answers a user without staff rights. *)
Definition view_form_body (request : Request) : Reply Response :=
  match get_view request with
  | ok view => if is_valid view then or_404 (view_form_of view) else http404
  | http404 => http404
  | login_redirect => http404
  end.

Definition view_form : Request -> Reply Response :=
  staff_member_required view_form_body.

Definition submit_form_body (request : Request) : Reply Response :=
  match get_view request with
  | ok view =>
      if has_key "_back" (POST request) then or_404 (quit_form view)
      else if has_key "_delete" (POST request)
      then (if is_valid view then or_404 (delete_form view) else http404)
      else (if is_valid view then or_404 (submit_form_of view) else http404)
  | http404 => http404
  | login_redirect => http404
  end.

Definition submit_form : Request -> Reply Response :=
  staff_member_required submit_form_body.

Definition add_form_body (request : Request) : Reply Response :=
  match get_view request with
  | ok view => if is_valid view then or_404 (add_form_of view) else http404
  | http404 => http404
  | login_redirect => http404
  end.

Definition add_form : Request -> Reply Response :=
  staff_member_required add_form_body.

Definition get_image_body (request : Request) : Reply Response :=
  match get_image_view request with
  | ok image_view =>
      if image_is_valid image_view
      then or_404 (image_render image_view) else http404
  | http404 => http404
  | login_redirect => http404
  end.

Definition get_image : Request -> Reply Response :=
  staff_member_required get_image_body.

End Views.

(** [sep.join(l)] for ["/"]. *)
Fixpoint join_slash (l : list string) : string :=
  match l with
  | [] => EmptyString
  | [x] => x
  | x :: l' => String.append x (String "/"%char (join_slash l'))
  end.

Fixpoint has_slash (s : string) : bool :=
  match s with
  | EmptyString => false
  | String c r => Ascii.eqb c "/"%char || has_slash r
  end.

(** The path [<prefix>/<name>/<page>]. *)
Definition form_path (prefix name page : string) : string :=
  String.append prefix
    (String "/"%char (String.append name (String "/"%char page))).

Definition sample_file : File :=
  mkFile "data.csv" [Byte.x61; Byte.x62; Byte.x63; Byte.x64; Byte.x65] false.

Definition is_export (r : Route) : bool :=
  match r with
  | to_export_game_data | to_export_resources | to_export_data_single => true
  | _ => false
  end.

Definition is_import (r : Route) : bool :=
  match r with
  | to_import_data_all | to_import_resources_all | to_import_data_single =>
      true
  | _ => false
  end.

(** Some export key is among the keys of [request.GET]. *)
Definition asks_export (request : Request) : bool :=
  has_key "export_game_data" (GET request)
  || has_key "export_resources" (GET request)
  || has_key "export_data_single" (GET request).

(** Some import key is among the keys of [request.FILES]. *)
Definition asks_import (request : Request) : bool :=
  has_key "import_data_all" (FILES request)
  || has_key "import_resources_all" (FILES request)
  || has_key "import_data_single" (FILES request).

(** ** The object store: basic facts *)

Lemma upd_same o d f : upd o d f d = f (o d).
Proof. unfold upd. now rewrite Nat.eqb_refl. Qed.

Lemma upd_other o d f k : k <> d -> upd o d f k = o k.
Proof.
  intros H. unfold upd.
  destruct (Nat.eqb_spec k d); [contradiction | reflexivity].
Qed.

Lemma iter_shift {A} (f : A -> A) n x :
  Nat.iter n f (f x) = f (Nat.iter n f x).
Proof. induction n; simpl; [reflexivity | now rewrite IHn]. Qed.

(** A loop over [ds] applies [f] to an object as many times as it is
    listed. *)
Lemma foreach_iter f ds : forall o k,
  foreach ds f o k = Nat.iter (count_occ Nat.eq_dec ds k) f (o k).
Proof.
  unfold foreach. induction ds as [|d ds IH]; intros o k; simpl.
  - reflexivity.
  - rewrite IH. destruct (Nat.eq_dec d k) as [->|Hne].
    + rewrite upd_same. simpl. now rewrite iter_shift.
    + rewrite upd_other by congruence. reflexivity.
Qed.

Lemma foreach_notin f ds o k : ~ In k ds -> foreach ds f o k = o k.
Proof.
  intros H. rewrite foreach_iter.
  rewrite (proj1 (count_occ_not_In Nat.eq_dec ds k) H). reflexivity.
Qed.

Lemma foreach_once f ds o k :
  NoDup ds -> In k ds -> foreach ds f o k = f (o k).
Proof.
  intros Hnd Hin. rewrite foreach_iter.
  assert (count_occ Nat.eq_dec ds k = 1) as ->.
  { pose proof (proj1 (NoDup_count_occ Nat.eq_dec ds) Hnd k).
    pose proof (proj1 (count_occ_In Nat.eq_dec ds k) Hin). lia. }
  reflexivity.
Qed.

(** A loop over [ds] ends, for a listed object, with a call of [f]. *)
Lemma foreach_last f ds o k :
  In k ds -> exists c, foreach ds f o k = f c.
Proof.
  intros Hin. rewrite foreach_iter.
  pose proof (proj1 (count_occ_In Nat.eq_dec ds k) Hin) as Hc.
  destruct (count_occ Nat.eq_dec ds k) as [|n]; [lia|].
  simpl. eauto.
Qed.

Lemma existsb_eqb_In d l : existsb (Nat.eqb d) l = true <-> In d l.
Proof.
  rewrite existsb_exists. split.
  - intros (x & Hx & He). apply Nat.eqb_eq in He. now subst.
  - intros H. exists d. split; [assumption | apply Nat.eqb_refl].
Qed.

(** ** Teardown: [cancel_timer], [at_stop], [stop] *)

Lemma cleanup_released c :
  combat_handler (cleanup c) = None /\ cmdset_combat (cleanup c) = 0.
Proof. unfold cleanup. simpl. destruct (has_account c); simpl; auto. Qed.

Lemma cleanup_frame c :
  name (cleanup c) = name c /\ team (cleanup c) = team c /\
  alive (cleanup c) = alive c /\ has_account (cleanup c) = has_account c.
Proof.
  unfold cleanup. simpl. destruct (has_account c) eqn:E; simpl; auto.
Qed.

Lemma cleanup_fold ds : forall s,
  fold_left (fun s' d => _cleanup_character d s') ds s
  = with_objs s (foreach ds cleanup (objs s)).
Proof.
  unfold foreach. induction ds as [|d ds IH]; intros s; simpl.
  - now destruct s.
  - rewrite IH. reflexivity.
Qed.

Lemma at_stop_eq s :
  at_stop s = with_objs (cancel_timer s)
                (foreach (characters s) cleanup (objs s)).
Proof.
  unfold at_stop. rewrite cleanup_fold.
  unfold cancel_timer. destruct (timer s) as [t|]; [|reflexivity].
  destruct (active t); reflexivity.
Qed.

Lemma cancel_timer_frame s :
  characters (cancel_timer s) = characters s /\
  finished (cancel_timer s) = finished s /\
  objs (cancel_timer s) = objs s /\
  stops (cancel_timer s) = stops s /\
  casts (cancel_timer s) = casts s.
Proof.
  unfold cancel_timer. destruct (timer s) as [t|]; [|auto].
  destruct (active t); simpl; auto.
Qed.

(** After [cancel_timer] no timer is pending. *)
Lemma cancel_timer_inactive s :
  match timer (cancel_timer s) with
  | Some t => active t = false
  | None => True
  end.
Proof.
  unfold cancel_timer. destruct (timer s) as [t|] eqn:E; [|now rewrite E].
  destruct (active t) eqn:A; simpl; [reflexivity | now rewrite E].
Qed.

Lemma cancel_timer_idem s : cancel_timer (cancel_timer s) = cancel_timer s.
Proof.
  pose proof (cancel_timer_inactive s) as H.
  unfold cancel_timer at 1.
  destruct (timer (cancel_timer s)) as [t|]; [|reflexivity].
  now rewrite H.
Qed.

Lemma stop_eq s :
  stop s =
  let s1 := cancel_timer s in
  mkState (self_id s1) (desc s1) (timeout s1) (characters s1) (finished s1)
          (timer s1) (foreach (characters s) cleanup (objs s))
          (timer_cancels s1) (S (stops s1)) (casts s1).
Proof. unfold stop. rewrite at_stop_eq. reflexivity. Qed.

Lemma stop_frame s :
  characters (stop s) = characters s /\
  finished (stop s) = finished s /\
  objs (stop s) = foreach (characters s) cleanup (objs s) /\
  stops (stop s) = S (stops s) /\
  timer (stop s) = timer (cancel_timer s) /\
  timer_cancels (stop s) = timer_cancels (cancel_timer s) /\
  casts (stop s) = casts s.
Proof.
  rewrite stop_eq. simpl.
  destruct (cancel_timer_frame s) as (-> & -> & _ & -> & ->). auto 10.
Qed.

(** Every path through [stop] releases the characters of the roster. *)
Lemma stop_releases s d :
  In d (characters s) ->
  combat_handler (objs (stop s) d) = None /\
  cmdset_combat (objs (stop s) d) = 0.
Proof.
  intros Hin. destruct (stop_frame s) as (_ & _ & -> & _).
  destruct (foreach_last cleanup _ (objs s) d Hin) as (c & ->).
  apply cleanup_released.
Qed.

(** ** The termination predicate *)

Lemma team_eqb_spec a b : reflect (a = b) (team_eqb a b).
Proof.
  destruct a as [x|], b as [y|]; simpl; try (constructor; congruence).
  destruct (Nat.eqb_spec x y); constructor; congruence.
Qed.

Lemma nodup_le1_all_same l :
  List.length (nodup Team_eq_dec l) <= 1 <-> all_same l.
Proof.
  split.
  - intros H a b Ha Hb.
    apply (nodup_In Team_eq_dec) in Ha, Hb.
    destruct (nodup Team_eq_dec l) as [|x [|y r]]; simpl in *;
      [contradiction | | lia].
    destruct Ha as [<-|[]], Hb as [<-|[]]. reflexivity.
  - intros H.
    pose proof (NoDup_nodup Team_eq_dec l) as Hnd.
    destruct (nodup Team_eq_dec l) as [|x [|y r]] eqn:E; simpl; try lia.
    exfalso. inversion Hnd as [|? ? Hx _]; subst. apply Hx.
    assert (x = y) as ->; [|now left].
    apply H; apply (nodup_In Team_eq_dec); rewrite E; simpl; auto.
Qed.

Lemma can_finish_loop_spec o ds : forall teams,
  teams = [] \/ (exists t, teams = [t]) ->
  can_finish_loop o ds teams = true <->
  all_same (teams ++ alive_team_list o ds).
Proof.
  unfold alive_team_list.
  induction ds as [|d ds IH]; intros teams Ht; simpl.
  - rewrite app_nil_r. split; [intros _|reflexivity].
    intros a b Ha Hb.
    destruct Ht as [->|(t & ->)]; simpl in *; [contradiction|].
    destruct Ha as [<-|[]], Hb as [<-|[]]. reflexivity.
  - destruct (alive (o d)); [|apply IH, Ht].
    destruct Ht as [->|(t & ->)]; unfold set_add; simpl.
    + rewrite IH by (right; eauto). reflexivity.
    + rewrite orb_false_r.
      destruct (team_eqb_spec (team (o d)) t) as [->|Hne]; simpl.
      * rewrite IH by (right; eauto). simpl.
        split; intros H a b Ha Hb; apply H; simpl in *; tauto.
      * split; [discriminate|]. intros H. exfalso. apply Hne.
        apply H; simpl; auto.
Qed.

(** C4: [can_finish] answers [True] exactly when the roster is not empty
    and the set of distinct team ids among its living characters has at
    most one element.  In particular the answer is [False] for an empty
    roster, [False] while two living characters of the roster are of
    different teams, and [True] for a roster that is not empty and has no
    living character. *)
Theorem can_finish_iff (s : State) :
  (can_finish s = true <->
   characters s <> [] /\ List.length (alive_teams s) <= 1) /\
  (characters s = [] -> can_finish s = false) /\
  (forall a b, In a (characters s) -> In b (characters s) ->
     alive (objs s a) = true -> alive (objs s b) = true ->
     team (objs s a) <> team (objs s b) -> can_finish s = false) /\
  (characters s <> [] ->
   (forall d, In d (characters s) -> alive (objs s d) = false) ->
   can_finish s = true).
Proof.
  assert (Hmain : can_finish s = true <->
     characters s <> [] /\ List.length (alive_teams s) <= 1).
  { unfold can_finish, alive_teams. rewrite nodup_le1_all_same.
    destruct (characters s) as [|d ds] eqn:E.
    - split; [discriminate | intros [H _]; now contradiction H].
    - rewrite can_finish_loop_spec by now left. simpl.
      split; [intros H; split; [discriminate | exact H] | tauto]. }
  split; [exact Hmain|]. split; [|split].
  - intros E. unfold can_finish. now rewrite E.
  - intros a b Ha Hb Aa Ab Hne.
    destruct (can_finish s) eqn:C; [|reflexivity]. exfalso.
    clear C. destruct (proj1 Hmain eq_refl) as [_ C].
    unfold alive_teams in C. rewrite nodup_le1_all_same in C.
    apply Hne, C; unfold alive_team_list;
      apply (in_map (fun d => team (objs s d))), filter_In; auto.
  - intros Hne Hdead. apply Hmain. split; [assumption|].
    unfold alive_teams. rewrite nodup_le1_all_same.
    intros a b Ha _. unfold alive_team_list in Ha.
    apply in_map_iff in Ha. destruct Ha as (d & _ & Hd).
    apply filter_In in Hd. destruct Hd as [Hin Hal].
    rewrite (Hdead d Hin) in Hal. discriminate.
Qed.

(** The double knockout of the sample session can finish. *)
Lemma can_finish_iff_witness :
  characters sample_ko <> [] /\
  (forall d, In d (characters sample_ko) ->
     alive (objs sample_ko d) = false) /\
  can_finish sample_ko = true.
Proof.
  assert (Hne : characters sample_ko <> []) by (vm_compute; discriminate).
  assert (Hd : forall d, In d (characters sample_ko) ->
                 alive (objs sample_ko d) = false).
  { intros d Hin. vm_compute in Hin.
    destruct Hin as [<-|[<-|[<-|[]]]]; reflexivity. }
  split; [exact Hne|]. split; [exact Hd|].
  exact (proj2 (proj2 (proj2 (can_finish_iff sample_ko))) Hne Hd).
Defined.

Example can_finish_sample : can_finish sample = false.
Proof. reflexivity. Qed.

Example can_finish_sample_won : can_finish sample_won = true.
Proof. reflexivity. Qed.

Example can_finish_fresh :
  can_finish (at_script_creation 7 sample_objs) = false.
Proof. reflexivity. Qed.

(** ** What the handler never writes *)

Lemma core_team c c' : core c = core c' -> team c = team c'.
Proof. unfold core. congruence. Qed.

Lemma core_alive c c' : core c = core c' -> alive c = alive c'.
Proof. unfold core. congruence. Qed.

Lemma core_has_account c c' :
  core c = core c' -> has_account c = has_account c'.
Proof. unfold core. congruence. Qed.

Lemma foreach_core f :
  (forall c, core (f c) = core c) ->
  forall ds o k, core (foreach ds f o k) = core (o k).
Proof.
  intros Hf ds o k. rewrite foreach_iter.
  induction (count_occ Nat.eq_dec ds k) as [|n IH]; simpl;
    [reflexivity | now rewrite Hf].
Qed.

Lemma cleanup_core c : core (cleanup c) = core c.
Proof.
  unfold cleanup, core. simpl.
  destruct (has_account c) eqn:E; simpl; rewrite ?E; reflexivity.
Qed.

Lemma notify_core r c : core (notify r c) = core c.
Proof.
  unfold notify, core.
  destruct (has_account c) eqn:E; simpl; rewrite ?E; reflexivity.
Qed.

Lemma winner_team_ext o o' ds :
  (forall k, core (o k) = core (o' k)) ->
  winner_team o ds = winner_team o' ds.
Proof.
  intros H. induction ds as [|d ds IH]; simpl; [reflexivity|].
  rewrite (core_alive _ _ (H d)), (core_team _ _ (H d)), IH. reflexivity.
Qed.

(** ** [finish] *)

Lemma finish_eq s :
  finish s =
  mkState (self_id s) (desc s) (timeout s) (characters s) true
          (timer (cancel_timer s)) (finish_objs s)
          (timer_cancels (cancel_timer s)) (S (stops s)) (casts s).
Proof.
  unfold finish. rewrite stop_eq. unfold finish_objs, is_winner.
  unfold cancel_timer at 5 6 7.
  destruct s as [i ds tm cs f [[dl [ | | ]]|] o n st ca]; simpl;
    destruct cs; reflexivity.
Qed.

Lemma cancel_timer_noop s : timer_inactive s -> cancel_timer s = s.
Proof.
  unfold timer_inactive, cancel_timer.
  destruct (timer s) as [t|]; [|reflexivity]. now intros ->.
Qed.

Lemma finish_timer_inactive s : timer_inactive (finish s).
Proof. rewrite finish_eq. apply (cancel_timer_inactive s). Qed.

Lemma stop_timer_inactive s : timer_inactive (stop s).
Proof.
  unfold timer_inactive. destruct (stop_frame s) as (_ & _ & _ & _ & -> & _).
  apply cancel_timer_inactive.
Qed.

Lemma timer_cancels_le s :
  timer_cancels s <= timer_cancels (cancel_timer s) <= S (timer_cancels s).
Proof.
  unfold cancel_timer. destruct (timer s) as [t|]; [|lia].
  destruct (active t); simpl; lia.
Qed.

Lemma finish_core s k : core (objs (finish s) k) = core (objs s k).
Proof.
  rewrite finish_eq. simpl. unfold finish_objs.
  rewrite (foreach_core cleanup cleanup_core).
  rewrite (foreach_core _ (notify_core Lose)).
  now rewrite (foreach_core _ (notify_core Win)).
Qed.

Lemma finish_outbox s d :
  NoDup (characters s) -> In d (characters s) ->
  outbox (objs (finish s) d) = outbox (objs s d) ++ finish_batch s d.
Proof.
  intros Hnd Hin. rewrite finish_eq. simpl. unfold finish_objs.
  rewrite (foreach_once _ _ _ _ Hnd Hin).
  unfold finish_batch, result_of.
  set (w := winner_team (objs s) (characters s)).
  destruct (is_winner (objs s) w d) eqn:W.
  - rewrite foreach_notin.
    2:{ rewrite filter_In, W. simpl. intros [_ H]. discriminate. }
    rewrite foreach_once;
      [| now apply NoDup_filter | apply filter_In; auto].
    unfold cleanup, notify. destruct (has_account (objs s d)) eqn:A;
      simpl; rewrite A; simpl; [now rewrite <- app_assoc | now rewrite app_nil_r].
  - rewrite foreach_once;
      [| now apply NoDup_filter | apply filter_In; rewrite W; auto].
    rewrite foreach_notin.
    2:{ rewrite filter_In, W. intros [_ H]. discriminate. }
    unfold cleanup, notify. destruct (has_account (objs s d)) eqn:A;
      simpl; rewrite A; simpl; [now rewrite <- app_assoc | now rewrite app_nil_r].
Qed.

Lemma finish_outside s d :
  ~ In d (characters s) -> objs (finish s) d = objs s d.
Proof.
  intros Hn. rewrite finish_eq. simpl. unfold finish_objs.
  rewrite !foreach_notin; try reflexivity; try assumption;
    rewrite filter_In; tauto.
Qed.

Example finish_sample_won_ann :
  outbox (objs (finish sample_won) 1)
  = outbox (objs sample_won 1) ++ [combat_finish Win; left_combat].
Proof. vm_compute. reflexivity. Qed.

Example finish_sample_won_bob :
  outbox (objs (finish sample_won) 2)
  = outbox (objs sample_won 2) ++ [combat_finish Lose; left_combat].
Proof. vm_compute. reflexivity. Qed.

Lemma finish_characters s : characters (finish s) = characters s.
Proof. now rewrite finish_eq. Qed.

Lemma finish_finished s : finished (finish s) = true.
Proof. now rewrite finish_eq. Qed.

Lemma winner_team_first_alive o ds a :
  first_alive o ds = Some a -> winner_team o ds = team (o a).
Proof.
  unfold first_alive. induction ds as [|d ds IH]; simpl; [discriminate|].
  destruct (alive (o d)); [intros [= ->]; reflexivity | exact IH].
Qed.

Lemma winner_team_none_alive o ds :
  (forall d, In d ds -> alive (o d) = false) -> winner_team o ds = None.
Proof.
  induction ds as [|d ds IH]; simpl; intros H; [reflexivity|].
  rewrite (H d) by now left. apply IH. intros k Hk. apply H. now right.
Qed.

(** C5: when [finish] runs on a roster with a living character, the
    winning team is the team of the first living character in iteration
    order; a character of the roster with an account hears "win" exactly
    when its team is the winning team and "lose" otherwise, dead or not,
    followed by its release; characters without account and characters
    outside the roster hear nothing. *)
Theorem finish_winners (s : State) (a : nat) :
  NoDup (characters s) ->
  first_alive (objs s) (characters s) = Some a ->
  winner_team (objs s) (characters s) = team (objs s a) /\
  (forall d, In d (characters s) ->
     outbox (objs (finish s) d)
     = outbox (objs s d) ++
       (if has_account (objs s d)
        then [combat_finish
                (if team_eqb (team (objs s d)) (team (objs s a))
                 then Win else Lose);
              left_combat]
        else [])) /\
  (forall d, ~ In d (characters s) ->
     outbox (objs (finish s) d) = outbox (objs s d)).
Proof.
  intros Hnd Hfa.
  pose proof (winner_team_first_alive _ _ _ Hfa) as Hw.
  split; [exact Hw|]. split.
  - intros d Hin. rewrite (finish_outbox s d Hnd Hin).
    unfold finish_batch, result_of, is_winner. now rewrite Hw.
  - intros d Hn. now rewrite finish_outside.
Qed.

(** In the sample session won by ann, ann hears "win", bob hears "lose"
    and the rat, which has no account, hears nothing. *)
Lemma finish_winners_witness :
  winner_team (objs sample_won) (characters sample_won) = Some 1 /\
  outbox (objs (finish sample_won) 1)
  = outbox (objs sample_won 1) ++ [combat_finish Win; left_combat] /\
  outbox (objs (finish sample_won) 2)
  = outbox (objs sample_won 2) ++ [combat_finish Lose; left_combat] /\
  outbox (objs (finish sample_won) 3) = outbox (objs sample_won 3).
Proof.
  assert (Hnd : NoDup (characters sample_won)) by nodup_list.
  assert (Hfa : first_alive (objs sample_won) (characters sample_won)
                = Some 1) by (vm_compute; reflexivity).
  destruct (finish_winners sample_won 1 Hnd Hfa) as (Hw & Hin & _).
  split; [exact Hw|].
  split; [|split].
  - rewrite (Hin 1) by (vm_compute; auto). reflexivity.
  - rewrite (Hin 2) by (vm_compute; auto). reflexivity.
  - rewrite (Hin 3) by (vm_compute; auto). vm_compute. reflexivity.
Defined.

(** C10: when [finish] runs on a roster that is not empty and has no
    living character, and no character's team is [None], [winner_team]
    stays [None]: every character of the roster with an account hears
    "lose", and nobody hears "win". *)
Theorem finish_double_knockout (s : State) :
  NoDup (characters s) ->
  characters s <> [] ->
  (forall d, In d (characters s) -> alive (objs s d) = false) ->
  (forall d, In d (characters s) -> team (objs s d) <> None) ->
  winner_team (objs s) (characters s) = None /\
  (forall d, In d (characters s) ->
     outbox (objs (finish s) d)
     = outbox (objs s d) ++
       (if has_account (objs s d)
        then [combat_finish Lose; left_combat] else [])) /\
  (forall d, exists l,
     outbox (objs (finish s) d) = outbox (objs s d) ++ l /\
     ~ In (combat_finish Win) l).
Proof.
  intros Hnd _ Hdead Hteam.
  pose proof (winner_team_none_alive _ _ Hdead) as Hw.
  assert (Hin : forall d, In d (characters s) ->
     outbox (objs (finish s) d)
     = outbox (objs s d) ++
       (if has_account (objs s d)
        then [combat_finish Lose; left_combat] else [])).
  { intros d Hd. rewrite (finish_outbox s d Hnd Hd).
    unfold finish_batch, result_of, is_winner. rewrite Hw.
    destruct (team_eqb_spec (team (objs s d)) None) as [E|_];
      [now apply Hteam in E | reflexivity]. }
  split; [exact Hw|]. split; [exact Hin|].
  intros d. destruct (in_dec Nat.eq_dec d (characters s)) as [Hd|Hd].
  - eexists. split; [apply (Hin d Hd)|].
    destruct (has_account (objs s d)); simpl; intuition discriminate.
  - exists []. rewrite finish_outside by assumption.
    rewrite app_nil_r. auto.
Qed.

(** After the double knockout of the sample session both players hear
    "lose". *)
Lemma finish_double_knockout_witness :
  winner_team (objs sample_ko) (characters sample_ko) = None /\
  outbox (objs (finish sample_ko) 1)
  = outbox (objs sample_ko 1) ++ [combat_finish Lose; left_combat] /\
  outbox (objs (finish sample_ko) 2)
  = outbox (objs sample_ko 2) ++ [combat_finish Lose; left_combat].
Proof.
  assert (Hnd : NoDup (characters sample_ko)) by nodup_list.
  assert (Hne : characters sample_ko <> []) by (vm_compute; discriminate).
  assert (Hd : forall d, In d (characters sample_ko) ->
                 alive (objs sample_ko d) = false).
  { intros d Hin. vm_compute in Hin.
    destruct Hin as [<-|[<-|[<-|[]]]]; reflexivity. }
  assert (Ht : forall d, In d (characters sample_ko) ->
                 team (objs sample_ko d) <> None).
  { intros d Hin. vm_compute in Hin.
    destruct Hin as [<-|[<-|[<-|[]]]]; vm_compute; discriminate. }
  destruct (finish_double_knockout sample_ko Hnd Hne Hd Ht)
    as (Hw & Hin & _).
  split; [exact Hw|]. split.
  - rewrite (Hin 1) by (vm_compute; auto). reflexivity.
  - rewrite (Hin 2) by (vm_compute; auto). reflexivity.
Defined.

(** ** Calling [finish] again *)

Lemma finish_batch_again s d :
  finish_batch (finish s) d = finish_batch s d.
Proof.
  unfold finish_batch, result_of, is_winner.
  rewrite finish_characters.
  rewrite (winner_team_ext (objs (finish s)) (objs s) _ (finish_core s)).
  rewrite (core_team _ _ (finish_core s d)).
  rewrite (core_has_account _ _ (finish_core s d)). reflexivity.
Qed.

(** C1: [finish] is not idempotent.  In the sample session won by ann the
    first [finish] sends ann one result and cancels the timer.  The second
    call finds the timer inactive and cancels nothing, but it has no test
    of [finished] and still finds the whole roster, which [at_stop] has
    not emptied: ann receives a second result, where the claim wants the
    second call to do nothing. *)
Lemma finish_twice_defect :
  results_received (finish sample_won) 1 = 1 /\
  results_received (finish (finish sample_won)) 1 = 2 /\
  outbox (objs (finish (finish sample_won)) 1)
  = outbox (objs (finish sample_won) 1) ++ [combat_finish Win; left_combat]
  /\
  timer_cancels (finish sample_won) = 1 /\
  timer_cancels (finish (finish sample_won)) = 1 /\
  finish (finish sample_won) <> finish sample_won.
Proof.
  split; [vm_compute; reflexivity|].
  split; [vm_compute; reflexivity|].
  split; [vm_compute; reflexivity|].
  split; [vm_compute; reflexivity|].
  split; [vm_compute; reflexivity|].
  intros E.
  assert (H : results_received (finish (finish sample_won)) 1
              = results_received (finish sample_won) 1) by now rewrite E.
  vm_compute in H. discriminate.
Qed.

(** ** Release on every way out *)

Lemma set_combat_draw_frame s :
  characters (set_combat_draw s) = characters s /\
  finished (set_combat_draw s) = finished s /\
  timer (set_combat_draw s) = timer s /\
  timer_cancels (set_combat_draw s) = timer_cancels s /\
  stops (set_combat_draw s) = stops s.
Proof. unfold set_combat_draw. simpl. auto. Qed.

Lemma at_timeout_running s :
  finished s = false -> at_timeout s = stop (set_combat_draw s).
Proof. unfold at_timeout. now intros ->. Qed.

Lemma finish_releases s d : In d (characters s) -> released (finish s) d.
Proof.
  intros Hin. unfold released. rewrite finish_eq. simpl. unfold finish_objs.
  destruct (foreach_last cleanup (characters s)
              (foreach
                 (filter (fun d0 => negb (is_winner (objs s)
                    (winner_team (objs s) (characters s)) d0))
                    (characters s)) (notify Lose)
                 (foreach
                    (filter (is_winner (objs s)
                       (winner_team (objs s) (characters s)))
                       (characters s)) (notify Win) (objs s))) d Hin)
    as (c & ->).
  apply cleanup_released.
Qed.

(** X24: after [finish], after a shutdown, and after a timeout that finds
    the session running, every character of the roster has no combat
    command set and no back-reference. *)
Theorem teardown_releases (s : State) (d : nat) :
  In d (characters s) ->
  released (finish s) d /\
  released (at_server_shutdown s) d /\
  (finished s = false -> released (at_timeout s) d).
Proof.
  intros Hin. split; [|split].
  - now apply finish_releases.
  - unfold at_server_shutdown. now apply stop_releases.
  - intros Hf. rewrite (at_timeout_running s Hf).
    apply stop_releases. exact Hin.
Qed.

Lemma teardown_releases_witness :
  released (finish sample) 2 /\ released (at_server_shutdown sample) 2 /\
  released (at_timeout sample) 2.
Proof.
  assert (Hin : In 2 (characters sample)) by (vm_compute; auto).
  destruct (teardown_releases sample 2 Hin) as (H1 & H2 & H3).
  split; [exact H1|]. split; [exact H2|].
  apply H3. vm_compute. reflexivity.
Defined.

(** C2: the roster is not emptied.  After [finish], after a timeout and
    after a shutdown of the sample session ann, bob and the rat are
    released, but the roster still lists all three, where the claim wants
    it empty: [at_stop] cleans every character and deletes none, unlike
    [remove_character] and [skill_escape], which clean and delete. *)
Lemma teardown_roster_defect :
  characters (finish sample) = [1; 2; 3] /\
  characters (at_timeout sample) = [1; 2; 3] /\
  characters (at_server_shutdown sample) = [1; 2; 3] /\
  characters (skill_escape (Some 2) sample) = [1; 3] /\
  characters (remove_character 3 sample3) = [1; 2; 4].
Proof. by_evaluation. Qed.

(** ** Timeout *)

Lemma cleanup_outbox c :
  outbox (cleanup c)
  = outbox c ++ (if has_account c then [left_combat] else []).
Proof.
  unfold cleanup. simpl.
  destruct (has_account c); simpl; [reflexivity | now rewrite app_nil_r].
Qed.

Lemma notify_outbox r c :
  outbox (notify r c)
  = outbox c ++ (if has_account c then [combat_finish r] else []).
Proof.
  unfold notify.
  destruct (has_account c); simpl; [reflexivity | now rewrite app_nil_r].
Qed.

Lemma at_timeout_objs s d :
  finished s = false -> NoDup (characters s) -> In d (characters s) ->
  objs (at_timeout s) d = cleanup (notify Draw (objs s d)).
Proof.
  intros Hf Hnd Hin. rewrite (at_timeout_running s Hf).
  destruct (stop_frame (set_combat_draw s)) as (_ & _ & -> & _).
  unfold set_combat_draw. simpl.
  rewrite (foreach_once _ _ _ _ Hnd Hin).
  rewrite (foreach_once _ _ _ _ Hnd Hin). reflexivity.
Qed.

(** C6: when the timer fires on a finished session [at_timeout] does
    nothing.  Otherwise every character of the roster with an account
    hears "draw" and then its release, no character hears anything else,
    every character of the roster is released, and the script is stopped
    once, with no timer left pending. *)
Theorem at_timeout_spec (s : State) :
  (finished s = true -> at_timeout s = s) /\
  (finished s = false -> NoDup (characters s) ->
   (forall d, In d (characters s) ->
      outbox (objs (at_timeout s) d) = outbox (objs s d) ++ draw_batch s d
      /\ released (at_timeout s) d) /\
   (forall d, ~ In d (characters s) ->
      objs (at_timeout s) d = objs s d) /\
   stops (at_timeout s) = S (stops s) /\
   timer_inactive (at_timeout s)).
Proof.
  split.
  - unfold at_timeout. now intros ->.
  - intros Hf Hnd. split; [|split; [|split]].
    + intros d Hin. split.
      * rewrite (at_timeout_objs s d Hf Hnd Hin).
        rewrite cleanup_outbox, notify_outbox.
        rewrite (core_has_account _ _ (notify_core Draw (objs s d))).
        unfold draw_batch.
        destruct (has_account (objs s d)); simpl;
          [now rewrite <- app_assoc | now rewrite !app_nil_r].
      * unfold released. rewrite (at_timeout_objs s d Hf Hnd Hin).
        apply cleanup_released.
    + intros d Hn. rewrite (at_timeout_running s Hf).
      destruct (stop_frame (set_combat_draw s)) as (_ & _ & -> & _).
      unfold set_combat_draw. simpl. now rewrite !foreach_notin.
    + rewrite (at_timeout_running s Hf).
      now destruct (stop_frame (set_combat_draw s)) as (_ & _ & _ & -> & _).
    + rewrite (at_timeout_running s Hf). apply stop_timer_inactive.
Qed.

(** The sample session times out: ann hears "draw", the rat nothing; and
    a timeout after [finish] changes nothing. *)
Lemma at_timeout_spec_witness :
  outbox (objs (at_timeout sample) 1)
  = outbox (objs sample 1) ++ [combat_finish Draw; left_combat] /\
  outbox (objs (at_timeout sample) 3) = outbox (objs sample 3) /\
  stops (at_timeout sample) = 1 /\
  at_timeout (finish sample_won) = finish sample_won.
Proof.
  assert (Hf : finished sample = false) by (vm_compute; reflexivity).
  assert (Hnd : NoDup (characters sample)) by nodup_list.
  destruct (at_timeout_spec sample) as (_ & H).
  destruct (H Hf Hnd) as (Hin & _ & Hs & _).
  split; [|split; [|split]].
  - destruct (Hin 1) as [-> _]; [vm_compute; auto | reflexivity].
  - destruct (Hin 3) as [-> _]; [vm_compute; auto |].
    vm_compute. reflexivity.
  - rewrite Hs. vm_compute. reflexivity.
  - apply (proj1 (at_timeout_spec (finish sample_won))).
    apply finish_finished.
Defined.

(** ** Skills after the end *)




(** ** Shutdown *)

Lemma cancel_timer_count s :
  timer_cancels (cancel_timer s)
  = timer_cancels s + (if timer_pending s then 1 else 0) /\
  timer_pending (cancel_timer s) = false.
Proof.
  unfold cancel_timer, timer_pending.
  destruct (timer s) as [t|] eqn:E.
  - destruct (active t) eqn:A; simpl.
    + split; [lia | reflexivity].
    + rewrite E, A. split; [lia | reflexivity].
  - rewrite E. split; [lia | reflexivity].
Qed.

Lemma timer_inactive_pending s : timer_inactive s -> timer_pending s = false.
Proof.
  unfold timer_inactive, timer_pending. now destruct (timer s).
Qed.

Lemma stop_objs s d :
  NoDup (characters s) -> In d (characters s) ->
  objs (stop s) d = cleanup (objs s d).
Proof.
  intros Hnd Hin. destruct (stop_frame s) as (_ & _ & -> & _).
  now apply foreach_once.
Qed.

Lemma stop_outside s d :
  ~ In d (characters s) -> objs (stop s) d = objs s d.
Proof.
  intros Hn. destruct (stop_frame s) as (_ & _ & -> & _).
  now apply foreach_notin.
Qed.

Lemma iter_cleanup_outbox n c :
  exists l, outbox (Nat.iter n cleanup c) = outbox c ++ l /\
            forall r, ~ In (combat_finish r) l.
Proof.
  induction n as [|n (l & E & H)]; simpl.
  - exists []. rewrite app_nil_r. auto.
  - exists (l ++ (if has_account (Nat.iter n cleanup c)
                  then [left_combat] else [])).
    rewrite cleanup_outbox, E, app_assoc. split; [reflexivity|].
    intros r Hr. apply in_app_or in Hr. destruct Hr as [Hr|Hr].
    + now apply (H r).
    + destruct (has_account (Nat.iter n cleanup c)); simpl in Hr;
        intuition discriminate.
Qed.

(** X25: a shutdown releases every character of the roster and cancels
    the timer exactly when it is pending, and no character hears a win,
    lose, draw or escape payload from it.  After [finish] or after a
    timeout it cancels no timer again. *)
Theorem at_server_shutdown_quiet (s : State) :
  (forall d, In d (characters s) -> released (at_server_shutdown s) d) /\
  timer_cancels (at_server_shutdown s)
  = timer_cancels s + (if timer_pending s then 1 else 0) /\
  timer_pending (at_server_shutdown s) = false /\
  (forall d, exists l,
     outbox (objs (at_server_shutdown s) d) = outbox (objs s d) ++ l /\
     forall r, ~ In (combat_finish r) l) /\
  timer_cancels (at_server_shutdown (finish s)) = timer_cancels (finish s) /\
  (finished s = false ->
   timer_cancels (at_server_shutdown (at_timeout s))
   = timer_cancels (at_timeout s)).
Proof.
  unfold at_server_shutdown.
  assert (Hcount : forall x, timer_cancels (stop x)
            = timer_cancels x + (if timer_pending x then 1 else 0)).
  { intros x. destruct (stop_frame x) as (_ & _ & _ & _ & _ & -> & _).
    apply cancel_timer_count. }
  split; [intros d; apply stop_releases|].
  split; [apply Hcount|].
  split.
  { unfold timer_pending.
    destruct (stop_frame s) as (_ & _ & _ & _ & -> & _).
    apply (cancel_timer_count s). }
  split.
  { intros d. destruct (stop_frame s) as (_ & _ & -> & _).
    rewrite foreach_iter. apply iter_cleanup_outbox. }
  split.
  { rewrite Hcount.
    rewrite (timer_inactive_pending _ (finish_timer_inactive s)). lia. }
  intros Hf. rewrite Hcount, (at_timeout_running s Hf).
  rewrite (timer_inactive_pending _ (stop_timer_inactive _)). lia.
Qed.

(** A shutdown in the middle of the sample session: bob is released, the
    pending timer is cancelled, and a shutdown after the timeout cancels
    nothing more. *)
Lemma at_server_shutdown_quiet_witness :
  released (at_server_shutdown sample) 2 /\
  timer_cancels (at_server_shutdown sample) = 1 /\
  timer_cancels (at_server_shutdown (at_timeout sample))
  = timer_cancels (at_timeout sample).
Proof.
  assert (Hin : In 2 (characters sample)) by (vm_compute; auto).
  destruct (at_server_shutdown_quiet sample)
    as (Hr & Hc & _ & _ & _ & Ht).
  split; [exact (Hr 2 Hin)|]. split.
  - rewrite Hc. vm_compute. reflexivity.
  - apply Ht. vm_compute. reflexivity.
Defined.

(** C7: a shutdown after [finish] is not without a second effect.  In the
    sample session won by ann, [finish] releases ann and tells her once
    that she left the combat; the shutdown that follows sends no win, lose
    or draw and cancels no timer, but [at_stop] finds ann still in the
    roster and cleans her again: she is told a second time that she left
    the combat and shows her status a second time. *)
Lemma shutdown_after_finish_defect :
  releases_heard (finish sample_won) 1 = 1 /\
  releases_heard (at_server_shutdown (finish sample_won)) 1 = 2 /\
  status_shown (objs (finish sample_won) 1) = 1 /\
  status_shown (objs (at_server_shutdown (finish sample_won)) 1) = 2 /\
  results_received (at_server_shutdown (finish sample_won)) 1
  = results_received (finish sample_won) 1 /\
  timer_cancels (at_server_shutdown (finish sample_won))
  = timer_cancels (finish sample_won).
Proof. by_evaluation. Qed.

(** ** Escape *)

Lemma dict_del_In l d k : In k (dict_del l d) <-> In k l /\ k <> d.
Proof.
  unfold dict_del. rewrite filter_In.
  destruct (Nat.eqb_spec k d); simpl; intuition congruence.
Qed.

(** C8: the escape of a character of the roster removes that character
    and no other from the roster, keeping the order of the others; the
    character hears "escaped" once, and then its release, when it has an
    account; it loses its combat command set and its back-reference; no
    other object changes; and the session is neither finished nor stopped,
    nor is its timer touched. *)
Theorem skill_escape_spec (s : State) (d : nat) :
  In d (characters s) ->
  let s' := skill_escape (Some d) s in
  characters s' = dict_del (characters s) d /\
  (forall k, In k (characters s') <-> In k (characters s) /\ k <> d) /\
  outbox (objs s' d)
  = outbox (objs s d) ++
    (if has_account (objs s d)
     then [combat_finish Escaped; left_combat] else []) /\
  released s' d /\
  (forall k, k <> d -> objs s' k = objs s k) /\
  finished s' = finished s /\ stops s' = stops s /\
  timer s' = timer s /\ timer_cancels s' = timer_cancels s /\
  casts s' = casts s.
Proof.
  intros Hin s'. subst s'. unfold skill_escape.
  apply existsb_eqb_In in Hin. unfold released.
  destruct (has_account (objs s d)) eqn:A; simpl; rewrite Hin; simpl.
  - split; [reflexivity|]. split; [apply dict_del_In|].
    rewrite !upd_same. split.
    { rewrite cleanup_outbox. simpl. rewrite A, <- app_assoc. reflexivity. }
    split; [apply cleanup_released|].
    split; [intros k Hk; now rewrite !upd_other | auto 10].
  - split; [reflexivity|]. split; [apply dict_del_In|].
    rewrite !upd_same. split.
    { rewrite cleanup_outbox, A. reflexivity. }
    split; [apply cleanup_released|].
    split; [intros k Hk; now rewrite !upd_other | auto 10].
Qed.

Lemma skill_escape_spec_witness :
  characters (skill_escape (Some 4) sample3) = [1; 2; 3] /\
  outbox (objs (skill_escape (Some 4) sample3) 4)
  = outbox (objs sample3 4) ++ [combat_finish Escaped; left_combat] /\
  can_finish (skill_escape (Some 4) sample3) = false /\
  finished (skill_escape (Some 4) sample3) = false.
Proof.
  assert (Hin : In 4 (characters sample3)) by (vm_compute; auto).
  destruct (skill_escape_spec sample3 4 Hin)
    as (Hc & _ & Ho & _ & _ & Hf & _).
  split; [rewrite Hc; vm_compute; reflexivity|].
  split; [rewrite Ho; reflexivity|].
  split; [vm_compute; reflexivity|].
  rewrite Hf. vm_compute. reflexivity.
Defined.

(** ** Admission *)

Lemma dict_set_In l d k : In k (dict_set l d) <-> In k l \/ k = d.
Proof.
  unfold dict_set. destruct (existsb (Nat.eqb d) l) eqn:E.
  - apply existsb_eqb_In in E. intuition congruence.
  - rewrite in_app_iff. simpl. intuition.
Qed.

Lemma dict_set_NoDup l d : NoDup l -> NoDup (dict_set l d).
Proof.
  intros H. unfold dict_set. destruct (existsb (Nat.eqb d) l) eqn:E.
  - exact H.
  - apply NoDup_app; [exact H | repeat constructor; simpl; tauto |].
    intros x Hx [<-|[]]. apply existsb_eqb_In in Hx. congruence.
Qed.

Lemma iter_set_team_rest t n c : rest (Nat.iter n (set_team t) c) = rest c.
Proof. induction n; simpl; [reflexivity | exact IHn]. Qed.

Lemma enlist_fold t cs : forall s,
  objs (fold_left (enlist_one t) cs s) = foreach cs (set_team t) (objs s) /\
  characters (fold_left (enlist_one t) cs s)
  = fold_left dict_set cs (characters s) /\
  hframe (fold_left (enlist_one t) cs s) = hframe s.
Proof.
  induction cs as [|d cs IH]; intros s; simpl; [auto|].
  destruct (IH (enlist_one t s d)) as (-> & -> & ->). auto.
Qed.

Lemma dict_set_fold cs : forall l,
  (forall k, In k (fold_left dict_set cs l) <-> In k l \/ In k cs) /\
  (NoDup l -> NoDup (fold_left dict_set cs l)).
Proof.
  induction cs as [|d cs IH]; intros l; simpl.
  - split; [intuition | auto].
  - destruct (IH (dict_set l d)) as [Hin Hnd]. split.
    + intros k. rewrite Hin, dict_set_In. intuition.
    + intros H. now apply Hnd, dict_set_NoDup.
Qed.

(** One team of the first loop of [set_combat]. *)
Lemma enlist_team_spec s t cs :
  let s' := enlist_team s (t, cs) in
  hframe s' = hframe s /\
  (forall k, In k (characters s') <-> In k (characters s) \/ In k cs) /\
  (NoDup (characters s) -> NoDup (characters s')) /\
  (forall k, rest (objs s' k) = rest (objs s k)) /\
  (forall k, In k cs -> team (objs s' k) = t) /\
  (forall k, ~ In k cs -> objs s' k = objs s k).
Proof.
  unfold enlist_team. simpl.
  destruct (enlist_fold t cs s) as (Ho & Hc & Hf). rewrite Ho, Hc.
  destruct (dict_set_fold cs (characters s)) as [Hin Hnd].
  split; [exact Hf|]. split; [exact Hin|]. split; [exact Hnd|].
  split; [|split].
  - intros k. rewrite foreach_iter. apply iter_set_team_rest.
  - intros k Hk. destruct (foreach_last (set_team t) cs (objs s) k Hk)
      as (c & ->). reflexivity.
  - intros k Hk. now apply foreach_notin.
Qed.

(** The first loop of [set_combat]. *)
Lemma enlist_teams_spec teams : forall s,
  let s1 := fold_left enlist_team teams s in
  hframe s1 = hframe s /\
  (forall k, In k (characters s1)
             <-> In k (characters s) \/ In k (actors teams)) /\
  (NoDup (characters s) -> NoDup (characters s1)) /\
  (forall k, rest (objs s1 k) = rest (objs s k)) /\
  (forall k, team (objs s1 k) = team (objs s k) \/
             listed teams k (team (objs s1 k))) /\
  (forall k, In k (actors teams) -> listed teams k (team (objs s1 k))).
Proof.
  unfold actors, listed.
  induction teams as [|[t cs] teams IH]; intros s; simpl.
  - split; [reflexivity|]. split; [intuition|]. split; [auto|].
    split; [auto|]. split; [auto | intros k []].
  - destruct (enlist_team_spec s t cs) as (Hf & Hin & Hnd & Hr & Ht & Hn).
    destruct (IH (enlist_team s (t, cs)))
      as (Hf' & Hin' & Hnd' & Hr' & Ht' & Ha').
    assert (Hor : forall k,
      team (objs (fold_left enlist_team teams (enlist_team s (t, cs))) k)
      = team (objs s k) \/
      exists cs0, ((t, cs) = (team (objs (fold_left enlist_team teams
                      (enlist_team s (t, cs))) k), cs0) \/
                   In (team (objs (fold_left enlist_team teams
                      (enlist_team s (t, cs))) k), cs0) teams) /\
                  In k cs0).
    { intros k. destruct (Ht' k) as [E|(cs0 & H1 & H2)].
      - rewrite E. destruct (in_dec Nat.eq_dec k cs) as [Hk|Hk].
        + right. exists cs. rewrite (Ht k Hk). auto.
        + left. now rewrite (Hn k Hk).
      - right. exists cs0. auto. }
    split; [now rewrite Hf'|].
    split; [intros k; rewrite Hin', Hin, in_app_iff; tauto|].
    split; [auto|].
    split; [intros k; now rewrite Hr'|].
    split; [exact Hor|].
    intros k Hk. apply in_app_or in Hk. destruct Hk as [Hk|Hk].
    + destruct (Hor k) as [E|H]; [|exact H].
      destruct (Ht' k) as [E'|(cs0 & H1 & H2)].
      * exists cs. rewrite E', (Ht k Hk). auto.
      * exists cs0. auto.
    + destruct (Ha' k Hk) as (cs0 & H1 & H2). exists cs0. auto.
Qed.

Lemma enter_char_core id a c : core (enter_char id a c) = core c.
Proof.
  unfold enter_char, core. simpl.
  destruct (has_account c) eqn:E; simpl; rewrite ?E; reflexivity.
Qed.

Lemma get_appearance_ext s s' :
  desc s = desc s' -> timeout s = timeout s' ->
  characters s = characters s' ->
  (forall k, core (objs s k) = core (objs s' k)) ->
  get_appearance s = get_appearance s'.
Proof.
  intros Hd Ht Hc Hk. unfold get_appearance. rewrite Hd, Ht, Hc.
  f_equal. apply map_ext. intros d. specialize (Hk d).
  unfold core in Hk. injection Hk as -> -> _ _ -> -> ->. reflexivity.
Qed.

Lemma enter_frame s d :
  hframe (enter s d) = hframe s /\ characters (enter s d) = characters s.
Proof.
  unfold enter.
  destruct (has_account _); split; reflexivity.
Qed.

Lemma enter_objs s d k :
  objs (enter s d) k
  = if Nat.eqb k d
    then enter_char (self_id s) (get_appearance s) (objs s k)
    else objs s k.
Proof.
  unfold enter, enter_char.
  rewrite !upd_same. simpl (has_account _).
  assert (Ha : get_appearance
            (with_objs s
               (upd (upd (objs s) d (set_combat_handler (Some (self_id s))))
                    d cmdset_add))
          = get_appearance s).
  { apply get_appearance_ext; try reflexivity. intros x. simpl.
    unfold upd. destruct (Nat.eqb x d); reflexivity. }
  destruct (has_account (objs s d)) eqn:A; simpl objs.
  - rewrite Ha. unfold upd.
    destruct (Nat.eqb_spec k d) as [->|_]; [now rewrite A | reflexivity].
  - unfold upd.
    destruct (Nat.eqb_spec k d) as [->|_]; [now rewrite A | reflexivity].
Qed.

Lemma enter_appearance s d : get_appearance (enter s d) = get_appearance s.
Proof.
  destruct (enter_frame s d) as [Hf Hc].
  apply get_appearance_ext; try assumption.
  - unfold hframe in Hf. congruence.
  - unfold hframe in Hf. congruence.
  - intros k. rewrite enter_objs.
    destruct (Nat.eqb k d); [apply enter_char_core | reflexivity].
Qed.

(** The second loop of [set_combat]. *)
Lemma enter_fold ds : forall s,
  hframe (fold_left enter ds s) = hframe s /\
  characters (fold_left enter ds s) = characters s /\
  get_appearance (fold_left enter ds s) = get_appearance s /\
  forall k,
    objs (fold_left enter ds s) k
    = Nat.iter (count_occ Nat.eq_dec ds k)
        (enter_char (self_id s) (get_appearance s)) (objs s k).
Proof.
  induction ds as [|d ds IH]; intros s; simpl; [auto|].
  destruct (IH (enter s d)) as (Hf & Hc & Ha & Ho).
  destruct (enter_frame s d) as [Hf' Hc'].
  split; [congruence|]. split; [congruence|].
  split; [now rewrite Ha, enter_appearance|].
  intros k. rewrite Ho, enter_appearance, enter_objs.
  assert (self_id (enter s d) = self_id s) as ->
    by (unfold hframe in Hf'; congruence).
  destruct (Nat.eq_dec d k) as [->|Hne].
  - rewrite Nat.eqb_refl. simpl. now rewrite iter_shift.
  - destruct (Nat.eqb_spec k d); [congruence | reflexivity].
Qed.

Lemma enter_char_fields id a c :
  team (enter_char id a c) = team c /\
  combat_handler (enter_char id a c) = Some id /\
  cmdset_combat (enter_char id a c) = S (cmdset_combat c) /\
  outbox (enter_char id a c)
  = outbox c ++
    (if has_account c then [joined_combat; combat_info a] else []).
Proof.
  unfold enter_char. simpl.
  destruct (has_account c); simpl;
    rewrite <- ?app_assoc, ?app_nil_r; auto.
Qed.

Lemma iter_enter_char_core id a n c :
  core (Nat.iter n (enter_char id a) c) = core c.
Proof.
  induction n; simpl; [reflexivity | now rewrite enter_char_core].
Qed.

(** C9: [set_combat] on a new handler puts exactly the characters of the
    team mapping into the roster, each one once; every one of them gets a
    team under which the mapping lists it, the back-reference to the
    handler and one more combat command set, and, when it has an account,
    hears "joined combat" and then the full snapshot of the combat: its
    description, its timeout and one entry for every character of the
    roster, in roster order, with its name, its team, its health and its
    icon; the handler is not finished; and a timer is pending exactly when
    the timeout is positive. *)
Theorem set_combat_spec (id : nat) (o : Objects)
  (teams : list (Team * list nat)) (dsc : string) (tmo : nat) :
  let s' := set_combat teams dsc tmo (at_script_creation id o) in
  let snapshot :=
    mkAppearance dsc tmo
      (map (fun k => mkInfo k (name (o k)) (team (objs s' k))
                            (max_hp (o k)) (hp (o k)) (icon (o k)))
           (characters s')) in
  (forall d, In d (characters s') <-> In d (actors teams)) /\
  NoDup (characters s') /\
  (forall d, In d (actors teams) ->
     listed teams d (team (objs s' d)) /\
     combat_handler (objs s' d) = Some id /\
     cmdset_combat (objs s' d) = S (cmdset_combat (o d)) /\
     outbox (objs s' d)
     = outbox (o d) ++
       (if has_account (o d)
        then [joined_combat; combat_info snapshot] else [])) /\
  finished s' = false /\
  timer s' = (if Nat.eqb tmo 0 then None else Some (mkTimer tmo Pending)) /\
  (timer_pending s' = true <-> 0 < tmo) /\
  get_appearance s' = snapshot.
Proof.
  set (s0 := mkState id dsc tmo [] false None o 0 0 []).
  set (s1 := fold_left enlist_team teams s0).
  set (s2 := fold_left enter (characters s1) s1).
  destruct (enlist_teams_spec teams s0) as (Hf1 & Hin1 & Hnd1 & Hr1 & _ & Ht1).
  fold s1 in Hf1, Hin1, Hnd1, Hr1, Ht1.
  destruct (enter_fold (characters s1) s1) as (Hf2 & Hc2 & Ha2 & Ho2).
  fold s2 in Hf2, Hc2, Ha2, Ho2.
  assert (Hnd : NoDup (characters s1)) by (apply Hnd1; constructor).
  rewrite Hf1 in Hf2. unfold hframe in Hf1, Hf2. unfold s0 in Hf1, Hf2.
  simpl in Hf1, Hf2.
  injection Hf1 as Hid _ _ _ _ _ _ _.
  injection Hf2 as _ Hds Htm Hfin Htim _ _ _.
  assert (Hs' : set_combat teams dsc tmo (at_script_creation id o)
                = if Nat.eqb tmo 0 then s2
                  else with_timer s2 (Some (mkTimer tmo Pending))).
  { unfold set_combat, start_combat. simpl.
    fold s0. fold s1. fold s2. now rewrite Htm. }
  assert (Hsnap : get_appearance s2
            = mkAppearance dsc tmo
                (map (fun k => mkInfo k (name (o k)) (team (objs s2 k))
                                      (max_hp (o k)) (hp (o k)) (icon (o k)))
                     (characters s2))).
  { unfold get_appearance. rewrite Hds, Htm. f_equal.
    apply map_ext. intros k. cbv zeta.
    assert (Hk : core (objs s2 k) = core (objs s1 k))
      by (rewrite Ho2; apply iter_enter_char_core).
    specialize (Hr1 k). unfold rest in Hr1. simpl in Hr1.
    unfold core in Hk.
    injection Hk as Hn _ _ _ Hm Hh Hi.
    injection Hr1 as Hn' _ _ Hm' Hh' Hi' _ _ _ _.
    now rewrite Hn, Hm, Hh, Hi, Hn', Hm', Hh', Hi'. }
  assert (Hone : forall d, In d (actors teams) ->
            objs s2 d = enter_char id (get_appearance s2) (objs s1 d)).
  { intros d Hd. rewrite Ho2, Ha2, Hid.
    assert (Hin : In d (characters s1)) by (apply Hin1; now right).
    assert (count_occ Nat.eq_dec (characters s1) d = 1) as ->.
    { pose proof (proj1 (NoDup_count_occ Nat.eq_dec _) Hnd d).
      pose proof (proj1 (count_occ_In Nat.eq_dec _ d) Hin). lia. }
    reflexivity. }
  assert (Hbody : forall d, In d (actors teams) ->
     listed teams d (team (objs s2 d)) /\
     combat_handler (objs s2 d) = Some id /\
     cmdset_combat (objs s2 d) = S (cmdset_combat (o d)) /\
     outbox (objs s2 d)
     = outbox (o d) ++
       (if has_account (o d)
        then [joined_combat;
              combat_info
                (mkAppearance dsc tmo
                   (map (fun k => mkInfo k (name (o k)) (team (objs s2 k))
                                   (max_hp (o k)) (hp (o k)) (icon (o k)))
                        (characters s2)))]
        else [])).
  { intros d Hd. rewrite <- Hsnap. rewrite (Hone d Hd) at 1 2 3 4.
    destruct (enter_char_fields id (get_appearance s2) (objs s1 d))
      as (-> & -> & -> & ->).
    specialize (Hr1 d). unfold rest in Hr1. simpl in Hr1.
    injection Hr1 as _ _ Hacc _ _ _ _ Hcm Hout _.
    rewrite Hacc, Hcm, Hout. auto using Ht1. }
  rewrite <- Hc2 in Hnd.
  assert (Hroster : forall d, In d (characters s2) <-> In d (actors teams)).
  { intros d. rewrite Hc2, Hin1. simpl. tauto. }
  cbv zeta. rewrite Hs'.
  destruct (Nat.eqb_spec tmo 0) as [E|E].
  - split; [exact Hroster|]. split; [exact Hnd|].
    split; [exact Hbody|]. split; [exact Hfin|]. split; [exact Htim|].
    split; [|exact Hsnap].
    unfold timer_pending. rewrite Htim. split; [discriminate | lia].
  - split; [exact Hroster|]. split; [exact Hnd|].
    split; [exact Hbody|]. split; [exact Hfin|]. split; [reflexivity|].
    split; [|exact Hsnap].
    unfold timer_pending. simpl. split; [lia | reflexivity].
Qed.

(** The sample session: ann joins team 1 and hears "joined combat" and
    then the snapshot with herself, bob and the rat; the timer of 5
    seconds is pending. *)
Lemma set_combat_spec_witness :
  In 1 (actors sample_teams) /\
  combat_handler (objs sample 1) = Some 7 /\
  cmdset_combat (objs sample 1) = 1 /\
  outbox (objs sample 1)
  = [joined_combat;
     combat_info
       (mkAppearance "duel" 5
          [mkInfo 1 "ann" (Some 1) 10 10 None;
           mkInfo 2 "bob" (Some 2) 12 7 None;
           mkInfo 3 "rat" (Some 2) 5 5 (Some "rat.png"%string)])] /\
  finished sample = false /\
  timer sample = Some (mkTimer 5 Pending).
Proof.
  assert (Hin : In 1 (actors sample_teams)) by (vm_compute; auto).
  unfold sample.
  destruct (set_combat_spec 7 sample_objs sample_teams "duel" 5)
    as (_ & _ & Hb & Hf & Ht & _ & _).
  destruct (Hb 1 Hin) as (_ & H2 & H3 & H4).
  split; [exact Hin|]. split; [exact H2|].
  split; [rewrite H3; vm_compute; reflexivity|].
  split; [rewrite H4; vm_compute; reflexivity|].
  split; [exact Hf | rewrite Ht; vm_compute; reflexivity].
Defined.

Example set_combat_sample_ann :
  outbox (objs sample 1)
  = [joined_combat;
     combat_info
       (mkAppearance "duel" 5
          [mkInfo 1 "ann" (Some 1) 10 10 None;
           mkInfo 2 "bob" (Some 2) 12 7 None;
           mkInfo 3 "rat" (Some 2) 5 5 (Some "rat.png"%string)])].
Proof. vm_compute. reflexivity. Qed.

Example set_combat_sample_rat :
  outbox (objs sample 3) = [] /\ cmdset_combat (objs sample 3) = 1 /\
  combat_handler (objs sample 3) = Some 7 /\ timer_pending sample = true.
Proof. vm_compute. auto. Qed.

(** ** Leaving by [remove_character] *)

Lemma existsb_eqb_notin d l : existsb (Nat.eqb d) l = false <-> ~ In d l.
Proof.
  rewrite <- existsb_eqb_In. destruct (existsb (Nat.eqb d) l);
    intuition congruence.
Qed.

Lemma dict_del_NoDup l d : NoDup l -> NoDup (dict_del l d).
Proof. apply NoDup_filter. Qed.

(** [can_finish] looks at the roster, and at who is alive in which team. *)
Lemma can_finish_ext s s' :
  characters s = characters s' ->
  (forall k, core (objs s k) = core (objs s' k)) ->
  can_finish s = can_finish s'.
Proof.
  intros Hc Hk. unfold can_finish. rewrite <- Hc.
  destruct (characters s) as [|d ds]; [reflexivity|].
  generalize (@nil Team). generalize (d :: ds). clear d ds Hc.
  intros l. induction l as [|x l IH]; intros ts; simpl; [reflexivity|].
  rewrite (core_alive _ _ (Hk x)), (core_team _ _ (Hk x)).
  destruct (alive (objs s' x)); [|apply IH].
  destruct (Nat.ltb 1 _); [reflexivity | apply IH].
Qed.

Lemma hframe_finished s s' : hframe s = hframe s' -> finished s = finished s'.
Proof. unfold hframe. congruence. Qed.

Lemma hframe_timer s s' :
  hframe s = hframe s' ->
  timer s = timer s' /\ timer_cancels s = timer_cancels s' /\
  stops s = stops s' /\ casts s = casts s'.
Proof. unfold hframe. intros [= _ _ _ _ -> -> -> ->]. auto. Qed.

Lemma remove_character_eq s d :
  In d (characters s) ->
  remove_character d s
  = if can_finish (without d s) then finish (without d s) else without d s.
Proof.
  intros Hin. unfold remove_character, without.
  now rewrite (proj2 (existsb_eqb_In d (characters s)) Hin).
Qed.

Lemma without_spec s d :
  characters (without d s) = dict_del (characters s) d /\
  hframe (without d s) = hframe s /\
  objs (without d s) d = cleanup (objs s d) /\
  (forall k, k <> d -> objs (without d s) k = objs s k).
Proof.
  unfold without. simpl. rewrite upd_same.
  repeat split. intros k Hk. now apply upd_other.
Qed.

(** X1: removing a character that is not in the roster changes nothing. *)
Theorem remove_character_absent (s : State) (d : nat) :
  ~ In d (characters s) -> remove_character d s = s.
Proof.
  intros Hn. unfold remove_character.
  now rewrite (proj2 (existsb_eqb_notin d (characters s)) Hn).
Qed.

Lemma remove_character_absent_witness : remove_character 4 sample = sample.
Proof.
  apply remove_character_absent. vm_compute. intuition discriminate.
Defined.

(** X2: removing a character of the roster while the others cannot finish
    yet takes just that character out of the roster, in place, releases it
    and tells it, when it has an account, that it left the combat; no
    other object changes, and the session is neither finished nor stopped,
    nor is its timer touched. *)
Theorem remove_character_continues (s : State) (d : nat) :
  In d (characters s) ->
  can_finish (without d s) = false ->
  let s' := remove_character d s in
  characters s' = dict_del (characters s) d /\
  objs s' d = cleanup (objs s d) /\
  released s' d /\
  (forall k, k <> d -> objs s' k = objs s k) /\
  hframe s' = hframe s.
Proof.
  intros Hin Hc s'. subst s'. rewrite (remove_character_eq s d Hin), Hc.
  destruct (without_spec s d) as (H1 & H2 & H3 & H4).
  split; [exact H1|]. split; [exact H3|].
  split; [unfold released; rewrite H3; apply cleanup_released|].
  split; [exact H4 | exact H2].
Qed.

(** Cid leaves the three-team melee: ann, bob and the rat fight on. *)
Lemma remove_character_continues_witness :
  characters (remove_character 4 sample3) = [1; 2; 3] /\
  outbox (objs (remove_character 4 sample3) 4)
  = outbox (objs sample3 4) ++ [left_combat] /\
  finished (remove_character 4 sample3) = false.
Proof.
  assert (Hin : In 4 (characters sample3)) by (vm_compute; auto).
  assert (Hc : can_finish (without 4 sample3) = false)
    by (vm_compute; reflexivity).
  destruct (remove_character_continues sample3 4 Hin Hc)
    as (H1 & H2 & _ & _ & H5).
  split; [rewrite H1; vm_compute; reflexivity|].
  split; [rewrite H2, cleanup_outbox; reflexivity|].
  rewrite (hframe_finished _ _ H5). vm_compute. reflexivity.
Defined.

(** X3: when taking a character out leaves a roster that can finish,
    [remove_character] finishes the combat at once: the flag is set, the
    script is stopped once, the remaining characters get their results
    and are released, while the one removed hears no result, only that it
    left the combat. *)
Theorem remove_character_finishes (s : State) (d : nat) :
  NoDup (characters s) ->
  In d (characters s) ->
  can_finish (without d s) = true ->
  let s' := remove_character d s in
  s' = finish (without d s) /\
  characters s' = dict_del (characters s) d /\
  finished s' = true /\
  stops s' = S (stops s) /\
  objs s' d = cleanup (objs s d) /\
  (forall k, In k (characters s) -> k <> d ->
     released s' k /\
     outbox (objs s' k)
     = outbox (objs s k) ++ finish_batch (without d s) k).
Proof.
  intros Hnd Hin Hc s'. subst s'.
  rewrite (remove_character_eq s d Hin), Hc.
  destruct (without_spec s d) as (H1 & H2 & H3 & H4).
  split; [reflexivity|].
  split; [now rewrite finish_characters|].
  split; [apply finish_finished|].
  split.
  { rewrite finish_eq. simpl. reflexivity. }
  split.
  { rewrite finish_outside; [exact H3|].
    rewrite H1, dict_del_In. tauto. }
  intros k Hk Hne.
  assert (Hk' : In k (characters (without d s)))
    by (rewrite H1, dict_del_In; tauto).
  split; [now apply finish_releases|].
  rewrite finish_outbox; [now rewrite (H4 k Hne) | | exact Hk'].
  rewrite H1. now apply dict_del_NoDup.
Qed.

(** Ann, the only one of team 1, is taken out of the sample session: bob
    wins without a fight and ann hears no result. *)
Lemma remove_character_finishes_witness :
  finished (remove_character 1 sample) = true /\
  outbox (objs (remove_character 1 sample) 1)
  = outbox (objs sample 1) ++ [left_combat] /\
  outbox (objs (remove_character 1 sample) 2)
  = outbox (objs sample 2) ++ [combat_finish Win; left_combat].
Proof.
  assert (Hnd : NoDup (characters sample)) by nodup_list.
  assert (Hin : In 1 (characters sample)) by (vm_compute; auto).
  assert (Hc : can_finish (without 1 sample) = true)
    by (vm_compute; reflexivity).
  destruct (remove_character_finishes sample 1 Hnd Hin Hc)
    as (_ & _ & Hf & _ & H1 & Hk).
  split; [exact Hf|]. split.
  - rewrite H1, cleanup_outbox. reflexivity.
  - destruct (Hk 2) as [_ ->];
      [vm_compute; auto | discriminate | vm_compute; reflexivity].
Defined.

(** X4: taking out the only character of the roster does not end the
    session: [can_finish] answers [False] for the empty roster, so the
    handler stays unfinished and unstopped, with its timer as it was. *)
Theorem remove_last_character (s : State) (d : nat) :
  characters s = [d] ->
  let s' := remove_character d s in
  characters s' = [] /\
  finished s' = finished s /\
  stops s' = stops s /\
  timer s' = timer s /\
  timer_cancels s' = timer_cancels s /\
  released s' d.
Proof.
  intros Hc s'. subst s'.
  assert (Hin : In d (characters s)) by (rewrite Hc; now left).
  destruct (without_spec s d) as (H1 & H2 & H3 & _).
  assert (He : characters (without d s) = []).
  { rewrite H1, Hc. simpl. now rewrite Nat.eqb_refl. }
  assert (Hf : can_finish (without d s) = false)
    by (unfold can_finish; now rewrite He).
  rewrite (remove_character_eq s d Hin), Hf.
  destruct (hframe_timer _ _ H2) as (Ht & Hn & Hs & _).
  split; [exact He|]. split; [exact (hframe_finished _ _ H2)|].
  split; [exact Hs|]. split; [exact Ht|]. split; [exact Hn|].
  unfold released. rewrite H3. apply cleanup_released.
Qed.

Lemma remove_last_character_witness :
  characters (remove_character 1 (without 3 (without 2 sample))) = [] /\
  finished (remove_character 1 (without 3 (without 2 sample))) = false /\
  timer_pending (remove_character 1 (without 3 (without 2 sample))) = true.
Proof.
  assert (Hc : characters (without 3 (without 2 sample)) = [1])
    by (vm_compute; reflexivity).
  destruct (remove_last_character _ 1 Hc) as (H1 & H2 & _ & H4 & _).
  split; [exact H1|]. split; [rewrite H2; vm_compute; reflexivity|].
  unfold timer_pending. rewrite H4. vm_compute. reflexivity.
Defined.

(** ** Escape of an outsider *)

(** X5: an escape without caller does nothing; the escape of a character
    that is not in the roster only tells it "escaped", when it has an
    account: it is not released, the roster keeps its entries and nothing
    else changes. *)
Theorem skill_escape_outsider (s : State) (d : nat) :
  skill_escape None s = s /\
  (~ In d (characters s) ->
   let s' := skill_escape (Some d) s in
   characters s' = characters s /\
   hframe s' = hframe s /\
   outbox (objs s' d)
   = outbox (objs s d) ++
     (if has_account (objs s d) then [combat_finish Escaped] else []) /\
   combat_handler (objs s' d) = combat_handler (objs s d) /\
   cmdset_combat (objs s' d) = cmdset_combat (objs s d) /\
   status_shown (objs s' d) = status_shown (objs s d) /\
   (forall k, k <> d -> objs s' k = objs s k)).
Proof.
  split; [reflexivity|]. intros Hn s'. subst s'. unfold skill_escape.
  apply existsb_eqb_notin in Hn.
  destruct (has_account (objs s d)) eqn:A; simpl; rewrite Hn.
  - simpl. rewrite upd_same. simpl.
    repeat split; auto. intros k Hk. now apply upd_other.
  - rewrite app_nil_r. repeat split; auto.
Qed.

(** Cid, who is not part of the sample session, casts an escape. *)
Lemma skill_escape_outsider_witness :
  outbox (objs (skill_escape (Some 4) sample) 4) = [combat_finish Escaped] /\
  characters (skill_escape (Some 4) sample) = [1; 2; 3].
Proof.
  assert (Hn : ~ In 4 (characters sample))
    by (vm_compute; intuition discriminate).
  destruct (proj2 (skill_escape_outsider sample 4) Hn) as (Hc & _ & Ho & _).
  split; [rewrite Ho; vm_compute; reflexivity|].
  rewrite Hc. vm_compute. reflexivity.
Defined.

(** ** Messages to the whole roster *)

(** X6: [msg_all] sends the message to every character of the roster,
    with or without account, once; nothing else changes. *)
Theorem msg_all_spec (m : Msg) (s : State) :
  NoDup (characters s) ->
  let s' := msg_all m s in
  characters s' = characters s /\ hframe s' = hframe s /\
  (forall d, In d (characters s) -> objs s' d = msg m (objs s d)) /\
  (forall d, ~ In d (characters s) -> objs s' d = objs s d).
Proof.
  intros Hnd s'. subst s'. unfold msg_all. simpl.
  split; [reflexivity|]. split; [reflexivity|]. split.
  - intros d Hin. now apply foreach_once.
  - intros d Hn. now apply foreach_notin.
Qed.

(** The rat has no account and still gets the message. *)
Lemma msg_all_spec_witness :
  outbox (objs (msg_all (skill_result "boo") sample) 3)
  = [skill_result "boo"].
Proof.
  assert (Hnd : NoDup (characters sample)) by nodup_list.
  destruct (msg_all_spec (skill_result "boo") sample Hnd)
    as (_ & _ & Hin & _).
  rewrite Hin by (vm_compute; auto). vm_compute. reflexivity.
Defined.

(** X7: [send_skill_result] sends the result once to every character of
    the roster that has an account and to nobody else. *)
Theorem send_skill_result_spec (r : string) (s : State) :
  NoDup (characters s) ->
  let s' := send_skill_result r s in
  characters s' = characters s /\ hframe s' = hframe s /\
  (forall d, In d (characters s) -> has_account (objs s d) = true ->
     objs s' d = msg (skill_result r) (objs s d)) /\
  (forall d, ~ In d (characters s) \/ has_account (objs s d) = false ->
     objs s' d = objs s d).
Proof.
  intros Hnd s'. subst s'. unfold send_skill_result. simpl.
  split; [reflexivity|]. split; [reflexivity|]. split.
  - intros d Hin A. rewrite (foreach_once _ _ _ _ Hnd Hin). now rewrite A.
  - intros d [Hn|A]; [now apply foreach_notin|].
    destruct (in_dec Nat.eq_dec d (characters s)) as [Hin|Hn];
      [|now apply foreach_notin].
    rewrite (foreach_once _ _ _ _ Hnd Hin). now rewrite A.
Qed.

Lemma send_skill_result_spec_witness :
  outbox (objs (send_skill_result "hit" sample) 2)
  = outbox (objs sample 2) ++ [skill_result "hit"] /\
  objs (send_skill_result "hit" sample) 3 = objs sample 3.
Proof.
  assert (Hnd : NoDup (characters sample)) by nodup_list.
  destruct (send_skill_result_spec "hit" sample Hnd) as (_ & _ & H1 & H2).
  split.
  - rewrite H1; [reflexivity | vm_compute; auto | vm_compute; reflexivity].
  - apply H2. right. vm_compute. reflexivity.
Defined.

(** ** The snapshot and the predicate across teardown *)

Lemma stop_core s k : core (objs (stop s) k) = core (objs s k).
Proof.
  destruct (stop_frame s) as (_ & _ & -> & _).
  apply (foreach_core cleanup cleanup_core).
Qed.

Lemma stop_desc s : desc (stop s) = desc s /\ timeout (stop s) = timeout s.
Proof.
  rewrite stop_eq. unfold cancel_timer.
  destruct (timer s) as [t|]; [destruct (active t)|]; auto.
Qed.

Lemma at_timeout_core s k : core (objs (at_timeout s) k) = core (objs s k).
Proof.
  unfold at_timeout. destruct (finished s); [reflexivity|].
  rewrite stop_core. unfold set_combat_draw. simpl.
  apply foreach_core. intros c. apply (notify_core Draw).
Qed.

Lemma exit_by_core e s k : core (objs (exit_by e s) k) = core (objs s k).
Proof.
  destruct e; simpl;
    [apply finish_core | apply at_timeout_core | apply stop_core].
Qed.

Lemma exit_by_characters e s : characters (exit_by e s) = characters s.
Proof.
  destruct e; unfold exit_by.
  - apply finish_characters.
  - unfold at_timeout. destruct (finished s); [reflexivity|].
    now destruct (stop_frame (set_combat_draw s)) as (-> & _).
  - apply stop_frame.
Qed.

Lemma exit_by_desc e s :
  desc (exit_by e s) = desc s /\ timeout (exit_by e s) = timeout s.
Proof.
  destruct e; unfold exit_by.
  - rewrite finish_eq. auto.
  - unfold at_timeout. destruct (finished s); [auto|].
    apply (stop_desc (set_combat_draw s)).
  - apply stop_desc.
Qed.

(** X8: the snapshot lists the roster, entry by entry in its order, and it
    is the same after a teardown as before: [finish], a timeout and a
    shutdown leave every released character in it. *)
Theorem get_appearance_spec (s : State) (e : Exit) :
  map i_dbref (a_characters (get_appearance s)) = characters s /\
  (forall i, In i (a_characters (get_appearance s)) ->
     In (i_dbref i) (characters s) /\
     i_name i = name (objs s (i_dbref i)) /\
     i_team i = team (objs s (i_dbref i)) /\
     i_max_hp i = max_hp (objs s (i_dbref i)) /\
     i_hp i = hp (objs s (i_dbref i)) /\
     i_icon i = icon (objs s (i_dbref i))) /\
  a_desc (get_appearance s) = desc s /\
  a_timeout (get_appearance s) = timeout s /\
  get_appearance (exit_by e s) = get_appearance s.
Proof.
  split; [|split; [|split; [|split]]]; try reflexivity.
  - unfold get_appearance. simpl. rewrite map_map. simpl. apply map_id.
  - intros i Hi. unfold get_appearance in Hi. simpl in Hi.
    apply in_map_iff in Hi. destruct Hi as (d & <- & Hd). simpl. auto 10.
  - apply get_appearance_ext.
    + apply exit_by_desc.
    + apply exit_by_desc.
    + apply exit_by_characters.
    + apply exit_by_core.
Qed.

(** X9: a teardown does not change the answer of [can_finish]: the roster
    is kept, and so are life and team of every character. *)
Theorem can_finish_after_exit (s : State) (e : Exit) :
  can_finish (exit_by e s) = can_finish s.
Proof.
  apply can_finish_ext; [apply exit_by_characters | apply exit_by_core].
Qed.

(** ** Skills while the combat runs *)

(** X10: on a running session a skill without caller does nothing; with a
    caller the skill is cast and then the combat is finished exactly when
    [can_finish] holds afterwards: then the flag is set, the script is
    stopped and the whole roster is released; otherwise the session is
    left as the skill left it. *)
Theorem prepare_skill_running
  (cast_skill : string -> nat -> option nat -> State -> State)
  (skill_key : string) (c : nat) (target : option nat) (s : State) :
  finished s = false ->
  let s1 := cast_skill skill_key c target
              (log_cast skill_key c target s) in
  let r := prepare_skill cast_skill skill_key (Some c) target s in
  prepare_skill cast_skill skill_key None target s = s /\
  (can_finish s1 = false -> r = s1) /\
  (can_finish s1 = true ->
   r = finish s1 /\ finished r = true /\ stops r = S (stops s1) /\
   forall d, In d (characters s1) -> released r d).
Proof.
  intros Hf s1 r. subst s1 r. unfold prepare_skill. rewrite Hf.
  split; [reflexivity|]. split; intros ->; [reflexivity|].
  split; [reflexivity|]. split; [apply finish_finished|].
  split; [now rewrite finish_eq | apply finish_releases].
Qed.

(** Ann kills bob while the rat lives: the combat goes on; then she kills
    the rat and wins. *)
Lemma prepare_skill_running_witness :
  finished (prepare_skill lethal "hit" (Some 1) (Some 2) sample) = false /\
  finished (prepare_skill lethal "hit" (Some 1) (Some 3) sample_rat) = true /\
  outbox (objs (prepare_skill lethal "hit" (Some 1) (Some 3) sample_rat) 1)
  = outbox (objs sample_rat 1) ++ [combat_finish Win; left_combat].
Proof.
  assert (Hf : finished sample = false) by (vm_compute; reflexivity).
  assert (Hf' : finished sample_rat = false) by (vm_compute; reflexivity).
  destruct (prepare_skill_running lethal "hit" 1 (Some 2) sample Hf)
    as (_ & H1 & _).
  destruct (prepare_skill_running lethal "hit" 1 (Some 3) sample_rat Hf')
    as (_ & _ & H2).
  split; [rewrite H1; vm_compute; reflexivity|].
  destruct H2 as (E & Hfin & _); [vm_compute; reflexivity|].
  split; [exact Hfin|]. rewrite E. vm_compute. reflexivity.
Defined.

Lemma can_finish_finish s : can_finish (finish s) = can_finish s.
Proof.
  apply can_finish_ext; [apply finish_characters | apply finish_core].
Qed.

(** X11: a skill that itself finishes a combat that can finish makes
    [prepare_skill] finish it a second time, because [can_finish] still
    holds after the first [finish]: every character of the roster with an
    account hears its result and its release twice. *)
Theorem prepare_skill_reentrant
  (cast_skill : string -> nat -> option nat -> State -> State)
  (skill_key : string) (c : nat) (target : option nat) (s s2 : State) :
  finished s = false ->
  cast_skill skill_key c target (log_cast skill_key c target s)
  = finish s2 ->
  can_finish s2 = true ->
  NoDup (characters s2) ->
  let r := prepare_skill cast_skill skill_key (Some c) target s in
  r = finish (finish s2) /\
  stops r = S (S (stops s2)) /\
  forall d, In d (characters s2) ->
    outbox (objs r d)
    = outbox (objs s2 d) ++ finish_batch s2 d ++ finish_batch s2 d.
Proof.
  intros Hf Hc Hcf Hnd r. subst r. unfold prepare_skill.
  rewrite Hf, Hc, can_finish_finish, Hcf.
  split; [reflexivity|]. split.
  - rewrite (finish_eq (finish s2)). cbn [stops].
    rewrite (finish_eq s2). reflexivity.
  - intros d Hin.
    rewrite finish_outbox by (rewrite finish_characters; assumption).
    rewrite finish_batch_again, (finish_outbox s2 d Hnd Hin).
    now rewrite app_assoc.
Qed.

Lemma prepare_skill_reentrant_witness :
  outbox (objs (prepare_skill finishing_skill "end" (Some 1) None
                  sample_won) 1)
  = outbox (objs sample_won 1) ++
    [combat_finish Win; left_combat; combat_finish Win; left_combat].
Proof.
  assert (Hf : finished sample_won = false) by (vm_compute; reflexivity).
  assert (Hcf : can_finish (log_cast "end" 1 None sample_won) = true)
    by (vm_compute; reflexivity).
  assert (Hnd : NoDup (characters (log_cast "end" 1 None sample_won)))
    by nodup_list.
  destruct (prepare_skill_reentrant finishing_skill "end" 1 None
              sample_won (log_cast "end" 1 None sample_won)
              Hf eq_refl Hcf Hnd) as (_ & _ & H).
  rewrite (H 1) by (vm_compute; auto). vm_compute. reflexivity.
Defined.

(** ** Teardown calls in sequence *)

Lemma timer_debt_cancel s : timer_debt (cancel_timer s) = timer_debt s.
Proof.
  unfold timer_debt. destruct (cancel_timer_count s) as [-> ->]. lia.
Qed.

Lemma timer_debt_eq s s' :
  timer s = timer s' -> timer_cancels s = timer_cancels s' ->
  timer_debt s = timer_debt s'.
Proof. unfold timer_debt, timer_pending. now intros -> ->. Qed.

Lemma timer_debt_stop s : timer_debt (stop s) = timer_debt s.
Proof.
  rewrite <- (timer_debt_cancel s).
  apply timer_debt_eq; apply stop_frame.
Qed.

Lemma timer_debt_exit e s : timer_debt (exit_by e s) = timer_debt s.
Proof.
  destruct e; unfold exit_by.
  - rewrite <- (timer_debt_cancel s).
    apply timer_debt_eq; now rewrite finish_eq.
  - unfold at_timeout. destruct (finished s); [reflexivity|].
    rewrite timer_debt_stop. now apply timer_debt_eq.
  - apply timer_debt_stop.
Qed.

Lemma foreach_keeps (P : Character -> Prop) f :
  (forall c, P c -> P (f c)) ->
  forall ds o k, P (o k) -> P (foreach ds f o k).
Proof.
  intros Hf ds o k H. rewrite foreach_iter.
  induction (count_occ Nat.eq_dec ds k); simpl; auto.
Qed.

Lemma cleanup_free c : free c -> free (cleanup c).
Proof. intros _. apply cleanup_released. Qed.

Lemma notify_free r c : free c -> free (notify r c).
Proof. unfold free, notify. now destruct (has_account c). Qed.

Lemma exit_by_keeps_released e s d :
  released s d -> released (exit_by e s) d.
Proof.
  unfold released. fold (free (objs s d)).
  intros H. destruct e; unfold exit_by.
  - rewrite finish_eq. simpl. unfold finish_objs.
    apply (foreach_keeps free _ cleanup_free).
    apply (foreach_keeps free _ (notify_free Lose)).
    now apply (foreach_keeps free _ (notify_free Win)).
  - unfold at_timeout. destruct (finished s); [exact H|].
    destruct (stop_frame (set_combat_draw s)) as (_ & _ & -> & _).
    apply (foreach_keeps free _ cleanup_free).
    unfold set_combat_draw. simpl.
    now apply (foreach_keeps free _ (notify_free Draw)).
  - unfold at_server_shutdown.
    destruct (stop_frame s) as (_ & _ & -> & _).
    now apply (foreach_keeps free _ cleanup_free).
Qed.

Lemma exits_middle es1 e es2 s :
  exits (es1 ++ e :: es2) s = exits es2 (exit_by e (exits es1 s)).
Proof. unfold exits. now rewrite fold_left_app. Qed.

Lemma timer_cancels_exit e s : timer_cancels s <= timer_cancels (exit_by e s).
Proof.
  destruct e; unfold exit_by.
  - rewrite finish_eq. simpl. apply timer_cancels_le.
  - unfold at_timeout. destruct (finished s); [lia|].
    destruct (stop_frame (set_combat_draw s))
      as (_ & _ & _ & _ & _ & -> & _).
    apply (timer_cancels_le (set_combat_draw s)).
  - unfold at_server_shutdown.
    destruct (stop_frame s) as (_ & _ & _ & _ & _ & -> & _).
    apply timer_cancels_le.
Qed.

Lemma exits_frame es : forall s,
  characters (exits es s) = characters s /\
  timer_debt (exits es s) = timer_debt s /\
  timer_cancels s <= timer_cancels (exits es s) /\
  forall d, released s d -> released (exits es s) d.
Proof.
  unfold exits. induction es as [|e es IH]; intros s; simpl; [auto|].
  destruct (IH (exit_by e s)) as (-> & -> & Hle & Hr).
  split; [apply exit_by_characters|]. split; [apply timer_debt_exit|].
  split; [pose proof (timer_cancels_exit e s); lia|].
  intros d H. now apply Hr, exit_by_keeps_released.
Qed.

(** X12: over any sequence of teardown calls ([finish], timeout and
    shutdown, in any order and number) the roster stays as it was, the
    timer is cancelled once if it was pending at the start and never
    otherwise, and no timer is left pending after a call of [finish] or of
    the shutdown; once one of these two has run, every character of the
    roster is released at the end of the sequence. *)
Theorem exits_spec (es : list Exit) (s : State) :
  characters (exits es s) = characters s /\
  timer_cancels (exits es s) <= timer_cancels s
                                + (if timer_pending s then 1 else 0) /\
  (In by_finish es \/ In by_shutdown es ->
   timer_pending (exits es s) = false /\
   timer_cancels (exits es s)
   = timer_cancels s + (if timer_pending s then 1 else 0) /\
   forall d, In d (characters s) -> released (exits es s) d).
Proof.
  destruct (exits_frame es s) as (Hc & Hd & _ & _).
  split; [exact Hc|]. split.
  { unfold timer_debt in Hd. destruct (timer_pending (exits es s)); lia. }
  intros Hin.
  assert (He : exists e es1 es2, es = es1 ++ e :: es2 /\
            (e = by_finish \/ e = by_shutdown)).
  { destruct Hin as [H|H]; apply in_split in H;
      destruct H as (l1 & l2 & ->); eauto 6. }
  destruct He as (e & es1 & es2 & -> & He).
  rewrite exits_middle in *. set (s1 := exits es1 s) in *.
  destruct (exits_frame es1 s) as (Hc1 & _ & _). fold s1 in Hc1.
  destruct (exits_frame es2 (exit_by e s1)) as (_ & Hd2 & Hle2 & Hr2).
  assert (Hp : timer_pending (exit_by e s1) = false).
  { destruct He as [-> | ->]; unfold exit_by.
    - apply timer_inactive_pending, finish_timer_inactive.
    - apply timer_inactive_pending, stop_timer_inactive. }
  unfold timer_debt in Hd, Hd2. rewrite Hp in Hd2.
  destruct (timer_pending (exits es2 (exit_by e s1))) eqn:Hq; [lia|].
  split; [reflexivity|]. split; [lia|].
  intros d Hd'. apply Hr2.
  destruct He as [-> | ->]; unfold exit_by.
  - apply finish_releases. now rewrite Hc1.
  - apply stop_releases. now rewrite Hc1.
Qed.

(** Timeout, then shutdown, then [finish] on the sample session: one
    cancellation, and bob is released. *)
Lemma exits_spec_witness :
  timer_cancels (exits [by_timeout; by_shutdown; by_finish] sample) = 1 /\
  released (exits [by_timeout; by_shutdown; by_finish] sample) 2.
Proof.
  destruct (exits_spec [by_timeout; by_shutdown; by_finish] sample)
    as (_ & _ & H).
  destruct H as (_ & Hn & Hr); [left; simpl; auto|].
  split; [rewrite Hn; vm_compute; reflexivity|].
  apply Hr. vm_compute. auto.
Defined.

(** X13: a teardown touches no object outside the roster; with an empty
    roster it touches none at all, and [finish] still sets the flag and
    stops the script. *)
Theorem exit_by_frame (e : Exit) (s : State) :
  (forall d, ~ In d (characters s) -> objs (exit_by e s) d = objs s d) /\
  (characters s = [] ->
   (forall d, objs (exit_by e s) d = objs s d) /\
   finished (finish s) = true /\ stops (finish s) = S (stops s)).
Proof.
  assert (H : forall d, ~ In d (characters s) ->
                objs (exit_by e s) d = objs s d).
  { intros d Hn. destruct e; unfold exit_by.
    - now apply finish_outside.
    - unfold at_timeout. destruct (finished s); [reflexivity|].
      rewrite stop_outside by exact Hn.
      unfold set_combat_draw. simpl. now apply foreach_notin.
    - now apply stop_outside. }
  split; [exact H|]. intros He. split.
  - intros d. apply H. rewrite He. intros [].
  - split; [apply finish_finished | now rewrite finish_eq].
Qed.

Lemma exit_by_frame_witness :
  objs (exit_by by_finish (at_script_creation 7 sample_objs)) 1
  = sample_objs 1 /\
  objs (exit_by by_timeout sample) 4 = objs sample 4.
Proof.
  split.
  - apply (proj2 (exit_by_frame by_finish
                    (at_script_creation 7 sample_objs)) eq_refl).
  - apply (proj1 (exit_by_frame by_timeout sample)).
    vm_compute. intuition discriminate.
Defined.

(** ** Admission into a handler that is already in use *)

Lemma enlist_teams_outside teams : forall s d,
  ~ In d (actors teams) ->
  objs (fold_left enlist_team teams s) d = objs s d.
Proof.
  unfold actors.
  induction teams as [|[t cs] teams IH]; intros s d Hn; simpl;
    [reflexivity|].
  simpl in Hn. rewrite in_app_iff in Hn.
  rewrite IH by tauto.
  destruct (enlist_team_spec s t cs) as (_ & _ & _ & _ & _ & Ho).
  apply Ho. tauto.
Qed.

Lemma set_combat_shape teams dsc tmo s :
  set_combat teams dsc tmo s
  = let s0 := mkState (self_id s) dsc tmo (characters s) (finished s)
                (timer s) (objs s) (timer_cancels s) (stops s) (casts s) in
    let s1 := fold_left enlist_team teams s0 in
    let s2 := fold_left enter (characters s1) s1 in
    if Nat.eqb tmo 0 then s2
    else with_timer s2 (Some (mkTimer tmo Pending)).
Proof.
  unfold set_combat, start_combat. cbv zeta.
  set (s0 := mkState (self_id s) dsc tmo (characters s) (finished s)
                (timer s) (objs s) (timer_cancels s) (stops s) (casts s)).
  set (s1 := fold_left enlist_team teams s0).
  destruct (enlist_teams_spec teams s0) as (Hf1 & _).
  destruct (enter_fold (characters s1) s1) as (Hf2 & _).
  fold s1 in Hf1. rewrite Hf1 in Hf2. unfold hframe, s0 in Hf2.
  simpl in Hf2. injection Hf2 as _ _ -> _ _ _ _ _. reflexivity.
Qed.

(** X14: [set_combat] on a handler with any roster adds the listed
    characters to it, each once; every character of the new roster, the
    earlier ones included, gets the back-reference, one more combat
    command set and, with an account, "joined combat" and the snapshot;
    objects outside the roster are not touched; the flag [finished], the
    stop and cancellation counts are kept; and with timeout 0 an earlier
    timer is kept, while a positive timeout puts a new pending timer in
    its place. *)
Theorem set_combat_again (teams : list (Team * list nat)) (dsc : string)
  (tmo : nat) (s : State) :
  NoDup (characters s) ->
  let s' := set_combat teams dsc tmo s in
  (forall d, In d (characters s')
             <-> In d (characters s) \/ In d (actors teams)) /\
  NoDup (characters s') /\
  (forall d, In d (characters s') ->
     combat_handler (objs s' d) = Some (self_id s) /\
     cmdset_combat (objs s' d) = S (cmdset_combat (objs s d)) /\
     outbox (objs s' d)
     = outbox (objs s d) ++
       (if has_account (objs s d)
        then [joined_combat; combat_info (get_appearance s')] else [])) /\
  (forall d, ~ In d (characters s') -> objs s' d = objs s d) /\
  finished s' = finished s /\ stops s' = stops s /\
  timer_cancels s' = timer_cancels s /\
  desc s' = dsc /\ timeout s' = tmo /\
  timer s' = (if Nat.eqb tmo 0 then timer s
              else Some (mkTimer tmo Pending)).
Proof.
  intros Hnd0 s'. subst s'. rewrite set_combat_shape. cbv zeta.
  set (s0 := mkState (self_id s) dsc tmo (characters s) (finished s)
                (timer s) (objs s) (timer_cancels s) (stops s) (casts s)).
  set (s1 := fold_left enlist_team teams s0).
  set (s2 := fold_left enter (characters s1) s1).
  destruct (enlist_teams_spec teams s0) as (Hf1 & Hin1 & Hnd1 & Hr1 & _).
  fold s1 in Hf1, Hin1, Hnd1, Hr1.
  destruct (enter_fold (characters s1) s1) as (Hf2 & Hc2 & Ha2 & Ho2).
  fold s2 in Hf2, Hc2, Ha2, Ho2.
  assert (Hnd : NoDup (characters s2)) by (rewrite Hc2; now apply Hnd1).
  rewrite Hf1 in Hf2. unfold hframe in Hf1, Hf2. unfold s0 in Hf1, Hf2.
  simpl in Hf1, Hf2.
  injection Hf1 as Hid _ _ _ _ _ _ _.
  injection Hf2 as _ Hds Htm Hfin Htim Hcan Hst _.
  assert (Hroster : forall d, In d (characters s2)
                      <-> In d (characters s) \/ In d (actors teams)).
  { intros d. rewrite Hc2, Hin1. simpl. tauto. }
  assert (Hbody : forall d, In d (characters s2) ->
     combat_handler (objs s2 d) = Some (self_id s) /\
     cmdset_combat (objs s2 d) = S (cmdset_combat (objs s d)) /\
     outbox (objs s2 d)
     = outbox (objs s d) ++
       (if has_account (objs s d)
        then [joined_combat; combat_info (get_appearance s2)] else [])).
  { intros d Hd. rewrite Hc2 in Hd. rewrite Ho2, <- Ha2, Hid.
    assert (count_occ Nat.eq_dec (characters s1) d = 1) as ->.
    { rewrite Hc2 in Hnd.
      pose proof (proj1 (NoDup_count_occ Nat.eq_dec _) Hnd d).
      pose proof (proj1 (count_occ_In Nat.eq_dec _ d) Hd). lia. }
    unfold Nat.iter. cbn [nat_rect].
    destruct (enter_char_fields (self_id s) (get_appearance s2) (objs s1 d))
      as (_ & -> & -> & ->).
    specialize (Hr1 d). unfold rest in Hr1. simpl in Hr1.
    injection Hr1 as _ _ Hacc _ _ _ _ Hcm Hout _.
    rewrite Hacc, Hcm, Hout. auto. }
  assert (Hout : forall d, ~ In d (characters s2) -> objs s2 d = objs s d).
  { intros d Hn. rewrite Ho2.
    rewrite Hc2 in Hn.
    rewrite (proj1 (count_occ_not_In Nat.eq_dec _ d) Hn).
    unfold Nat.iter. cbn [nat_rect].
    unfold s1. rewrite enlist_teams_outside; [reflexivity|].
    intros Hd. apply Hn, Hin1. now right. }
  destruct (Nat.eqb tmo 0).
  - repeat (split; [assumption|]). assumption.
  - simpl. repeat (split; [assumption|]). reflexivity.
Qed.

(** Cid joins the running sample session with a second [set_combat]:
    ann, already in the roster, gets a second combat command set. *)
Lemma set_combat_again_witness :
  characters (set_combat [(Some 3, [4])] "more" 0 sample) = [1; 2; 3; 4] /\
  cmdset_combat (objs (set_combat [(Some 3, [4])] "more" 0 sample) 1) = 2 /\
  timer (set_combat [(Some 3, [4])] "more" 0 sample) = timer sample.
Proof.
  assert (Hnd : NoDup (characters sample)) by nodup_list.
  destruct (set_combat_again [(Some 3, [4])] "more" 0 sample Hnd)
    as (_ & _ & Hb & _ & _ & _ & _ & _ & _ & Ht).
  split; [vm_compute; reflexivity|].
  split; [|rewrite Ht; vm_compute; reflexivity].
  destruct (Hb 1) as (_ & -> & _); [vm_compute; auto|].
  vm_compute. reflexivity.
Defined.

Lemma set_combat_core_after teams dsc tmo s d :
  core (objs (set_combat teams dsc tmo s) d)
  = core (objs (fold_left enlist_team teams
                  (mkState (self_id s) dsc tmo (characters s) (finished s)
                     (timer s) (objs s) (timer_cancels s) (stops s)
                     (casts s))) d).
Proof.
  rewrite set_combat_shape. cbv zeta.
  set (s1 := fold_left enlist_team teams _).
  destruct (enter_fold (characters s1) s1) as (_ & _ & _ & Ho).
  assert (H : core (objs (fold_left enter (characters s1) s1) d)
              = core (objs s1 d))
    by (rewrite Ho; apply iter_enter_char_core).
  destruct (Nat.eqb tmo 0); exact H.
Qed.

(** X15: a character listed under several teams ends in the team of its
    last listing: when the mapping lists it under [t] and under no later
    team, its team after [set_combat] is [t]. *)
Theorem set_combat_last_listing (before after : list (Team * list nat))
  (t : Team) (cs : list nat) (dsc : string) (tmo : nat) (s : State)
  (d : nat) :
  In d cs -> ~ In d (actors after) ->
  team (objs (set_combat (before ++ (t, cs) :: after) dsc tmo s) d) = t.
Proof.
  intros Hin Hn.
  rewrite (core_team _ _ (set_combat_core_after _ dsc tmo s d)).
  rewrite fold_left_app. simpl.
  rewrite enlist_teams_outside by exact Hn.
  destruct (enlist_team_spec
              (fold_left enlist_team before
                 (mkState (self_id s) dsc tmo (characters s) (finished s)
                    (timer s) (objs s) (timer_cancels s) (stops s)
                    (casts s))) t cs) as (_ & _ & _ & _ & Ht & _).
  now apply Ht.
Qed.

(** Bob is listed under team 1 and then under team 2. *)
Lemma set_combat_last_listing_witness :
  team (objs (set_combat ([(Some 1, [1; 2])] ++ (Some 2, [2; 3]) :: [])
                "duel" 0 (at_script_creation 7 sample_objs)) 2) = Some 2.
Proof.
  apply set_combat_last_listing; [simpl; auto | simpl; auto].
Defined.

(** ** The roster has no repetition *)

(** X16: every operation of the handler keeps the roster free of
    repetition: admission, escape, removal, the three teardowns, the
    messages to the roster, and a skill, provided the skill's own effect
    keeps it so. *)
Theorem roster_NoDup_kept (s : State) :
  NoDup (characters s) ->
  (forall teams dsc tmo, NoDup (characters (set_combat teams dsc tmo s))) /\
  (forall c, NoDup (characters (skill_escape c s))) /\
  (forall d, NoDup (characters (remove_character d s))) /\
  (forall e, NoDup (characters (exit_by e s))) /\
  (forall m, NoDup (characters (msg_all m s))) /\
  (forall r, NoDup (characters (send_skill_result r s))) /\
  (forall (cast_skill : string -> nat -> option nat -> State -> State)
          k c t,
     (forall k' c' t' x, NoDup (characters x) ->
        NoDup (characters (cast_skill k' c' t' x))) ->
     NoDup (characters (prepare_skill cast_skill k c t s))).
Proof.
  intros Hnd. split; [|split; [|split; [|split; [|split; [|split]]]]].
  - intros teams dsc tmo.
    apply (set_combat_again teams dsc tmo s Hnd).
  - intros [d|]; [|exact Hnd]. unfold skill_escape.
    destruct (has_account (objs s d)); simpl;
      destruct (existsb (Nat.eqb d) (characters s)); simpl;
      auto using dict_del_NoDup.
  - intros d. unfold remove_character.
    destruct (existsb (Nat.eqb d) (characters s)); [|exact Hnd].
    cbv zeta. destruct (can_finish _);
      rewrite ?finish_characters; simpl; now apply dict_del_NoDup.
  - intros e. now rewrite exit_by_characters.
  - intros m. exact Hnd.
  - intros r. exact Hnd.
  - intros cast_skill k c t Hcast. unfold prepare_skill.
    destruct (finished s); [exact Hnd|].
    destruct c as [c|]; [|exact Hnd].
    assert (H : NoDup (characters (cast_skill k c t (log_cast k c t s))))
      by (apply Hcast; exact Hnd).
    destruct (can_finish _); [now rewrite finish_characters | exact H].
Qed.

(** The sample roster stays free of repetition when ann is removed and
    when cid is admitted. *)
Lemma roster_NoDup_kept_witness :
  NoDup (characters (remove_character 1 sample)) /\
  NoDup (characters (set_combat [(Some 3, [4; 1])] "more" 0 sample)).
Proof.
  assert (Hnd : NoDup (characters sample)) by nodup_list.
  destruct (roster_NoDup_kept sample Hnd) as (H1 & _ & H3 & _).
  split; [apply H3 | apply H1].
Defined.

(** ** Serving a file in chunks *)

Lemma firstn_nil_iff {A} n (l : list A) :
  0 < n -> (firstn n l = [] <-> l = []).
Proof.
  intros Hn. destruct n as [|n]; [lia|].
  destruct l; simpl; split; congruence.
Qed.

Lemma file_iterator_loop_ok erase n :
  0 < n ->
  forall fuel f,
    List.length (unread f) < fuel ->
    exists r,
      file_iterator_loop fuel f erase n = Some r /\
      List.concat (chunks r) = unread f /\
      Forall (fun c => c <> [] /\ List.length c <= n) (chunks r) /\
      (forall l1 c l2, chunks r = l1 ++ c :: l2 -> l2 <> [] ->
         List.length c = n) /\
      (chunks r = [] <-> unread f = []) /\
      file_end r = mkFile (fname f) [] true /\
      removed r = (if erase then [fname f] else []).
Proof.
  intros Hn. induction fuel as [|fuel IH]; intros f Hlt; [lia|].
  simpl. destruct (firstn n (unread f)) as [|x c'] eqn:E.
  - apply (proj1 (firstn_nil_iff n (unread f) Hn)) in E.
    eexists. split; [reflexivity|]. simpl. unfold close. simpl.
    rewrite E, skipn_nil. repeat split; auto.
    intros l1 c l2 H. now destruct l1.
  - assert (Hne : unread f <> []).
    { intros H. rewrite H, firstn_nil in E. discriminate. }
    set (f1 := mkFile (fname f) (skipn n (unread f)) (closed f)).
    assert (Hlt1 : List.length (unread f1) < fuel).
    { simpl. rewrite length_skipn.
      assert (0 < List.length (unread f))
        by (destruct (unread f); [congruence | simpl; lia]).
      lia. }
    destruct (IH f1 Hlt1) as (r & -> & Hcat & Hall & Hmid & Hnil & Hend & Hrm).
    eexists. split; [reflexivity|]. simpl.
    split.
    { rewrite Hcat.
      change (x :: c' ++ unread f1) with ((x :: c') ++ unread f1).
      rewrite <- E. apply firstn_skipn. }
    split.
    { constructor; [|exact Hall]. split; [discriminate|].
      rewrite <- E. apply firstn_le_length. }
    split.
    { intros l1 c l2 H Hl2. destruct l1 as [|c0 l1]; simpl in H.
      - injection H as <- Hr.
        assert (Hu : unread f1 <> []).
        { intros Hu. apply Hnil in Hu. rewrite Hu in Hr. now subst l2. }
        simpl in Hu. rewrite <- E, length_firstn.
        assert (n < List.length (unread f)); [|lia].
        destruct (Nat.lt_ge_cases n (List.length (unread f))) as [H|H];
          [exact H|].
        now rewrite skipn_all2 in Hu.
      - injection H as _ Hr. exact (Hmid l1 c l2 Hr Hl2). }
    split; [split; [discriminate | intros H; now apply Hne in H]|].
    split; [exact Hend | exact Hrm].
Qed.

(** X17: run to its end with a positive chunk size, [file_iterator] yields
    the unread content of the file, cut into chunks that are not empty
    and have the chunk size, except the last, which may be shorter; then
    the file is read to its end and closed, and it is removed exactly when
    [erase] is set. *)
Theorem file_iterator_serves (file : File) (erase : bool)
  (chunk_size : nat) :
  0 < chunk_size ->
  exists r,
    file_iterator file erase chunk_size = Some r /\
    List.concat (chunks r) = unread file /\
    Forall (fun c => c <> [] /\ List.length c <= chunk_size) (chunks r) /\
    (forall l1 c l2, chunks r = l1 ++ c :: l2 -> l2 <> [] ->
       List.length c = chunk_size) /\
    file_end r = mkFile (fname file) [] true /\
    removed r = (if erase then [fname file] else []).
Proof.
  intros Hn. unfold file_iterator.
  destruct (file_iterator_loop_ok erase chunk_size Hn
              (S (List.length (unread file))) file (Nat.lt_succ_diag_r _))
    as (r & H1 & H2 & H3 & H4 & _ & H5 & H6).
  exists r. auto 10.
Qed.

(** Five bytes in chunks of two. *)
Lemma file_iterator_serves_witness :
  exists r,
    file_iterator sample_file true 2 = Some r /\
    List.concat (chunks r) = unread sample_file /\
    removed r = ["data.csv"%string].
Proof.
  destruct (file_iterator_serves sample_file true 2 (Nat.lt_0_succ 1))
    as (r & H1 & H2 & _ & _ & _ & H6).
  exists r. split; [exact H1|]. split; [exact H2 | exact H6].
Defined.

(** X18: with chunk size 0, or on a file with nothing left to read,
    [file_iterator] yields no chunk at all; it still closes the file and
    removes it when [erase] is set.  With chunk size 0 the content stays
    unread. *)
Theorem file_iterator_nothing (file : File) (erase : bool)
  (chunk_size : nat) :
  chunk_size = 0 \/ unread file = [] ->
  file_iterator file erase chunk_size
  = Some (mkServed [] (close file)
                   (if erase then [fname file] else [])).
Proof.
  intros H. unfold file_iterator. simpl.
  destruct file as [nm u cl]. simpl.
  destruct H as [-> | H]; simpl in *.
  - reflexivity.
  - subst u. rewrite firstn_nil, skipn_nil. reflexivity.
Qed.

Lemma file_iterator_nothing_witness :
  file_iterator sample_file false 0
  = Some (mkServed [] (close sample_file) []).
Proof. apply (file_iterator_nothing sample_file false 0). now left. Defined.

(** ** Which form a request is about *)

Lemma split_slash_nonempty s : split_slash s <> [].
Proof.
  destruct s as [|c r]; simpl; [discriminate|].
  destruct (Ascii.eqb c "/"); [discriminate|].
  destruct (split_slash r); discriminate.
Qed.

Lemma split_slash_app a b :
  split_slash (String.append a (String "/"%char b))
  = split_slash a ++ split_slash b.
Proof.
  induction a as [|c a IH]; simpl; [reflexivity|].
  rewrite IH. destruct (Ascii.eqb c "/"); [reflexivity|].
  pose proof (split_slash_nonempty a).
  destruct (split_slash a); [contradiction | reflexivity].
Qed.

Lemma split_slash_plain s : has_slash s = false -> split_slash s = [s].
Proof.
  induction s as [|c r IH]; simpl; [reflexivity|].
  destruct (Ascii.eqb c "/"); simpl; [discriminate|].
  intros H. now rewrite (IH H).
Qed.

Lemma split_slash_length s :
  has_slash s = false <-> List.length (split_slash s) = 1.
Proof.
  split; [intros H; now rewrite split_slash_plain|].
  induction s as [|c r IH]; simpl; [reflexivity|].
  destruct (Ascii.eqb c "/"); simpl.
  - pose proof (split_slash_nonempty r).
    destruct (split_slash r); simpl; [contradiction | discriminate].
  - pose proof (split_slash_nonempty r).
    destruct (split_slash r) eqn:E; [contradiction|]. simpl in *.
    exact IH.
Qed.

Lemma last_but_one_none l :
  l <> [] -> (last_but_one l = None <-> List.length l = 1).
Proof.
  intros Hne. unfold last_but_one.
  rewrite <- (length_rev l).
  assert (rev l <> []) by (intros H; apply Hne; now rewrite <- (rev_involutive l), H).
  destruct (rev l) as [|x [|y t]]; simpl; [contradiction | tauto |].
  split; discriminate.
Qed.

(** X19: the form name of a request is missing exactly when its path has
    no slash.  Then, for a user with staff rights, [get_view] and
    [get_image_view] raise "not found" and every form view and the image
    view end in "not found", whatever the view objects would do; a user
    without staff rights is sent to the login page. *)
Theorem form_name_missing (request : Request) :
  (form_name_of request = None <-> has_slash (path request) = false) /\
  (has_slash (path request) = false ->
   get_view request
   = (if staff request then http404 else login_redirect) /\
   get_image_view request
   = (if staff request then http404 else login_redirect) /\
   forall (Response : Type) is_valid (f g h k : View -> option Response)
          image_is_valid image_render,
     view_form Response is_valid f request
     = (if staff request then http404 else login_redirect) /\
     submit_form Response is_valid f g h request
     = (if staff request then http404 else login_redirect) /\
     add_form Response is_valid k request
     = (if staff request then http404 else login_redirect) /\
     get_image Response image_is_valid image_render request
     = (if staff request then http404 else login_redirect)).
Proof.
  assert (Hiff : form_name_of request = None
                 <-> has_slash (path request) = false).
  { unfold form_name_of.
    rewrite (last_but_one_none _ (split_slash_nonempty _)).
    symmetry. apply split_slash_length. }
  split; [exact Hiff|]. intros H. apply Hiff in H.
  unfold view_form, submit_form, add_form, get_image, get_view,
    get_image_view, staff_member_required, view_form_body,
    submit_form_body, add_form_body, get_image_body, get_view,
    get_image_view, staff_member_required, get_view_body,
    get_image_view_body.
  rewrite H. destruct (staff request); repeat split.
Qed.

Lemma form_name_missing_witness :
  get_view (mkRequest true "form.html" [] [] []) = http404 /\
  get_view (mkRequest false "form.html" [] [] []) = login_redirect.
Proof.
  split.
  - apply (proj2 (form_name_missing (mkRequest true "form.html" [] [] []))).
    reflexivity.
  - apply (proj2 (form_name_missing (mkRequest false "form.html" [] [] []))).
    reflexivity.
Defined.

(** X20: the form name is the segment of the path before its last slash:
    for the path [<prefix>/<name>/<page>], where neither name nor page
    holds a slash, it is [<name>], whatever the prefix.  For a user with
    staff rights [get_view] then returns a view, and [get_image_view]
    returns the image of the dialogue chain when the name is
    "dialogue_relations" and raises "not found" for every other name. *)
Theorem form_name_segment (request : Request) (prefix name page : string) :
  path request = form_path prefix name page ->
  has_slash name = false -> has_slash page = false ->
  form_name_of request = Some name /\
  (staff request = true ->
   (exists view, get_view request = ok view) /\
   get_image_view request
   = (if String.eqb name "dialogue_relations"
      then ok (DialogueChainImage name request) else http404)).
Proof.
  intros Hp Hn Hg.
  assert (H : form_name_of request = Some name).
  { unfold form_name_of, form_path in *. rewrite Hp.
    rewrite split_slash_app, split_slash_app.
    rewrite (split_slash_plain name Hn), (split_slash_plain page Hg).
    unfold last_but_one. rewrite !rev_app_distr. reflexivity. }
  split; [exact H|]. intros Hs.
  unfold get_view, get_image_view, staff_member_required, get_view_body,
    get_image_view_body.
  rewrite Hs, H. split; [eauto | reflexivity].
Qed.

Lemma form_name_segment_witness :
  form_name_of
    (mkRequest true "/worlddata/editor/world_exits/form.html" [] [] [])
  = Some "world_exits"%string /\
  get_image_view
    (mkRequest true "/worlddata/editor/world_exits/form.html" [] [] [])
  = http404.
Proof.
  destruct (form_name_segment
           (mkRequest true "/worlddata/editor/world_exits/form.html"
                      [] [] [])
           "/worlddata/editor" "world_exits" "form.html"
           eq_refl eq_refl eq_refl) as (H1 & H2).
  split; [exact H1|].
  destruct (H2 eq_refl) as (_ & ->). reflexivity.
Defined.

(** ** Images, forms and the editor's entry *)

(** X21: [get_image] answers with a rendered image exactly when the user
    has staff rights, the form name of the request is "dialogue_relations",
    the image view is valid and its rendering succeeds; it sends to the
    login page exactly when the user has no staff rights; every other
    request ends in "not found". *)
Theorem get_image_spec (Response : Type) (image_is_valid : Image -> bool)
  (image_render : Image -> option Response) (request : Request) :
  (forall resp,
     get_image Response image_is_valid image_render request = ok resp <->
     staff request = true /\
     form_name_of request = Some "dialogue_relations"%string /\
     image_is_valid (DialogueChainImage "dialogue_relations" request)
     = true /\
     image_render (DialogueChainImage "dialogue_relations" request)
     = Some resp) /\
  (get_image Response image_is_valid image_render request = login_redirect
   <-> staff request = false).
Proof.
  unfold get_image, get_image_body, get_image_view, staff_member_required,
    get_image_view_body, or_404.
  destruct (staff request); (split; [intros resp|]).
  - destruct (form_name_of request) as [nm|].
    + destruct (String.eqb_spec nm "dialogue_relations") as [->|Hne].
      * destruct (image_is_valid _).
        -- destruct (image_render _) as [x|]; split.
           ++ intros [= ->]. auto.
           ++ intros (_ & _ & _ & [= ->]). reflexivity.
           ++ discriminate.
           ++ intros (_ & _ & _ & H). discriminate.
        -- split; [discriminate|]. intros (_ & _ & H & _). discriminate.
      * split; [discriminate|]. intros (_ & [= E] & _). contradiction.
    + split; [discriminate|]. intros (_ & H & _). discriminate.
  - split; [|discriminate].
    destruct (form_name_of request) as [nm|]; [|discriminate].
    destruct (String.eqb nm "dialogue_relations"); [|discriminate].
    destruct (image_is_valid _); [|discriminate].
    destruct (image_render _); discriminate.
  - split; [discriminate|]. intros (H & _). discriminate.
  - split; reflexivity.
Qed.

(** X22: [submit_form], [view_form] and [add_form] send a user without
    staff rights to the login page.  For a request on which [get_view]
    returns a view, [submit_form] with "_back" among the posted keys quits
    the form without asking whether the view is valid, even when "_delete"
    is posted too; without "_back" a view that is not valid is neither
    deleted nor submitted, and is not shown or added to by [view_form] and
    [add_form]: the answer is "not found"; a valid view is deleted when
    "_delete" is posted and submitted otherwise. *)
Theorem submit_form_spec (Response : Type) (is_valid : View -> bool)
  (view_form_of quit_form delete_form submit_form_of add_form_of
     : View -> option Response)
  (request : Request) (view : View) :
  (staff request = false ->
   submit_form Response is_valid quit_form delete_form submit_form_of
     request = login_redirect /\
   view_form Response is_valid view_form_of request = login_redirect /\
   add_form Response is_valid add_form_of request = login_redirect) /\
  (get_view request = ok view ->
   (has_key "_back" (POST request) = true ->
    submit_form Response is_valid quit_form delete_form submit_form_of
      request = or_404 Response (quit_form view)) /\
   (is_valid view = false ->
    (has_key "_back" (POST request) = false ->
     submit_form Response is_valid quit_form delete_form submit_form_of
       request = http404) /\
    view_form Response is_valid view_form_of request = http404 /\
    add_form Response is_valid add_form_of request = http404) /\
   (is_valid view = true -> has_key "_back" (POST request) = false ->
    submit_form Response is_valid quit_form delete_form submit_form_of
      request
    = or_404 Response
        (if has_key "_delete" (POST request)
         then delete_form view else submit_form_of view))).
Proof.
  unfold submit_form, view_form, add_form, staff_member_required,
    submit_form_body, view_form_body, add_form_body.
  split.
  - intros ->. auto.
  - intros Hv.
    assert (Hs : staff request = true).
    { unfold get_view, staff_member_required in Hv.
      destruct (staff request); [reflexivity | discriminate]. }
    rewrite Hs, Hv.
    split; [now intros ->|]. split.
    + intros ->. split; [intros ->; now destruct (has_key "_delete" _)|].
      auto.
    + intros -> ->. now destruct (has_key "_delete" _).
Qed.

Lemma submit_form_spec_witness :
  submit_form nat (fun _ => false) (fun _ => Some 1) (fun _ => Some 2)
    (fun _ => Some 3)
    (mkRequest true "/worlddata/editor/skills/form.html" []
       ["_back"%string; "_delete"%string] [])
  = ok 1.
Proof.
  set (r := mkRequest true "/worlddata/editor/skills/form.html" []
              ["_back"%string; "_delete"%string] []).
  assert (Hv : get_view r = ok (FormView "skills" r))
    by (vm_compute; reflexivity).
  destruct (submit_form_spec nat (fun _ => false) (fun _ => Some 0)
              (fun _ => Some 1) (fun _ => Some 2) (fun _ => Some 3)
              (fun _ => Some 4) r (FormView "skills" r)) as (_ & H).
  destruct (H Hv) as (Hb & _).
  rewrite Hb; [reflexivity | vm_compute; reflexivity].
Defined.

(** X23: [worldeditor] sends a user without staff rights to the login
    page and dispatches nothing.  For a user with staff rights it hands
    the request to an export view exactly when an export key is among its
    GET keys, whatever was uploaded or posted; to an import view exactly
    when there is no export key and an import key is among the uploaded
    files; to [apply_changes] exactly when there is neither and "apply" is
    posted; and it renders the editor exactly when none of the seven keys
    is there. *)
Theorem worldeditor_priority (request : Request) :
  (staff request = false -> worldeditor request = login_redirect) /\
  (staff request = true ->
   exists route,
     worldeditor request = ok route /\
     (is_export route = true <-> asks_export request = true) /\
     (is_import route = true
      <-> asks_export request = false /\ asks_import request = true) /\
     (route = to_apply_changes
      <-> asks_export request = false /\ asks_import request = false /\
          has_key "apply" (POST request) = true) /\
     (route = to_world_editor
      <-> asks_export request = false /\ asks_import request = false /\
          has_key "apply" (POST request) = false)).
Proof.
  unfold worldeditor, staff_member_required, worldeditor_body,
    asks_export, asks_import.
  split; [now intros ->|]. intros ->.
  destruct (has_key "export_game_data" (GET request));
  destruct (has_key "export_resources" (GET request));
  destruct (has_key "export_data_single" (GET request));
  destruct (has_key "import_data_all" (FILES request));
  destruct (has_key "import_resources_all" (FILES request));
  destruct (has_key "import_data_single" (FILES request));
  destruct (has_key "apply" (POST request));
  eexists; (split; [reflexivity|]);
  simpl; repeat split; intros; try discriminate; try reflexivity;
    repeat match goal with H : _ /\ _ |- _ => destruct H end;
    discriminate.
Qed.

(** An export asked for together with an upload and "apply" is an export;
    without staff rights nothing is dispatched. *)
Lemma worldeditor_priority_witness :
  (exists route,
     worldeditor (mkRequest true "/worlddata/editor/"
                    ["export_resources"%string] ["apply"%string]
                    ["import_data_all"%string]) = ok route /\
     is_export route = true) /\
  worldeditor (mkRequest false "/worlddata/editor/"
                 ["export_resources"%string] [] []) = login_redirect.
Proof.
  split.
  - destruct (proj2 (worldeditor_priority
                       (mkRequest true "/worlddata/editor/"
                          ["export_resources"%string] ["apply"%string]
                          ["import_data_all"%string])) eq_refl)
      as (route & H1 & H2 & _).
    exists route. split; [exact H1|]. apply H2. reflexivity.
  - apply (proj1 (worldeditor_priority
                    (mkRequest false "/worlddata/editor/"
                       ["export_resources"%string] [] []))).
    reflexivity.
Defined.
